(** * Feed-normalisation handlers of the dashboard add-on kit

    A shallow embedding of the two serverless handlers

    - [api/ttc-alerts.ts]     (TTC GTFS-RT alerts  -> JSON), module [TtcAlerts];
    - [api/envcan-alerts.ts]  (Environment Canada ATOM -> JSON), module [EnvcanAlerts];

    and the properties their specification states about them, followed by the
    helpers and state updates of the dashboard component, module [Dashboard].

    What the handlers take from outside (the upstream answer of [fetch], the
    protobuf decoder, the XML parser) is a parameter of the model, gathered in a
    record [Env]; what the JavaScript runtime does for them (truthiness,
    property reads, [toString], [trim], [Date.prototype.toISOString],
    [JSON.stringify]) is written out in module [Js]. *)

From Stdlib Require Import ZArith String Ascii List Bool Lia.
From stdpp Require Import base option list strings pretty gmap.

Local Open Scope Z_scope.

(* ===================================================================== *)
(** * The JavaScript runtime, as far as the handlers use it *)
(* ===================================================================== *)

Module Js.

(** ** Thrown values and the [try]/[catch] discipline *)

(** What a [catch (err)] clause can receive: an [Error] made by the handler
    or a library, an error the engine raises ([TypeError], [RangeError]), or a
    value that carries no [message]. The wording of the engine's own messages
    is not fixed by the language: the texts below are indicative, and the
    properties are stated without them. *)
Inductive Thrown :=
| Error (message : string)
| TypeError (message : string)
| RangeError (message : string)
| NoMessage.

(** [err?.message ?? 'failed'] *)
Definition message_or_failed (err : Thrown) : string :=
  match err with
  | Error m | TypeError m | RangeError m => m
  | NoMessage => "failed"
  end.

(** A computation that returns or throws. *)
Inductive result (A : Type) :=
| Ok (a : A)
| Throw (err : Thrown).
Arguments Ok {A} a.
Arguments Throw {A} err.

Definition bind {A B} (m : result A) (k : A -> result B) : result B :=
  match m with
  | Ok a => k a
  | Throw err => Throw err
  end.

Notation "'do' x <- m ; k" := (bind m (fun x => k))
  (at level 10, x name, m at level 100, k at level 200).

(** [xs.map(f)] for an [f] that may throw: left to right, the first throw
    aborts. *)
Fixpoint mapM {A B} (f : A -> result B) (xs : list A) : result (list B) :=
  match xs with
  | [] => Ok []
  | x :: xs' => do y <- f x; do ys <- mapM f xs'; Ok (y :: ys)
  end.

Definition is_ok {A} (m : result A) : bool :=
  match m with Ok _ => true | Throw _ => false end.

(** ** JSON: what [res.json] puts on the wire *)

#[warnings="-register-all"] Inductive Json :=
| JsonNull
| JsonBool (b : bool)
| JsonNum (n : Z)
| JsonStr (s : string)
| JsonArr (items : list Json)
| JsonObj (members : list (string * Json)).

(** [JSON.stringify] of an object literal: a property whose value is
    [undefined] (here [None]) is left out, the others keep their order. *)
Definition literal (props : list (string * option Json)) : Json :=
  JsonObj (omap (fun kv => pair (fst kv) <$> snd kv) props).

(** The keys of a JSON object, in order, and the value under a key. *)
Definition keys (j : Json) : list string :=
  match j with
  | JsonObj ms => fst <$> ms
  | _ => []
  end.

Fixpoint assoc {V} (k : string) (ms : list (string * V)) : option V :=
  match ms with
  | [] => None
  | (k', v) :: ms' => if String.eqb k k' then Some v else assoc k ms'
  end.

Definition member (k : string) (j : Json) : option Json :=
  match j with
  | JsonObj ms => assoc k ms
  | _ => None
  end.

Definition is_array (j : Json) : bool :=
  match j with JsonArr _ => true | _ => false end.

(** ** Strings *)

(** Strings are sequences of code units below 256. White space, for
    [String.prototype.trim], is then TAB, LF, VT, FF, CR, SP and NBSP. *)
Definition is_white (c : ascii) : bool :=
  match c with
  | "009" | "010" | "011" | "012" | "013" | " " | "160" => true
  | _ => false
  end%char.

Fixpoint trimStart (s : string) : string :=
  match s with
  | EmptyString => EmptyString
  | String c s' => if is_white c then trimStart s' else s
  end.

Definition trimEnd (s : string) : string :=
  String.rev (trimStart (String.rev s)).

Definition trim (s : string) : string := trimEnd (trimStart s).

(** [xs.join(",")] on strings. *)
Fixpoint join (xs : list string) : string :=
  match xs with
  | [] => ""
  | [x] => x
  | x :: xs' => x +:+ "," +:+ join xs'
  end.

(** ** Numbers as text

    An integer [n] stands for the Number nearest to it. A Number keeps 53
    significant bits, and a longer integer is rounded to the nearest such
    value, to the even one on a tie. *)
Definition nearest_double (n : Z) : Z :=
  let bits := Z.log2 n + 1 in
  if bits <=? 53 then n
  else
    let sh := bits - 53 in
    let q := Z.shiftr n sh in
    let r := n - Z.shiftl q sh in
    let half := Z.shiftl 1 (sh - 1) in
    Z.shiftl (if (half <? r) || ((r =? half) && Z.odd q) then q + 1 else q) sh.

(** The decimal [v] reads back as the Number [x]. *)
Definition reads_as (x v : Z) : bool := nearest_double v =? x.

(** The decimal of [k] significant digits that reads back as [x], if there
    is one: the multiple of the right power of ten just below [x] or just
    above it, the closer one when both do. *)
Definition with_digits (x : Z) (k : Z) : option Z :=
  let p := 10 ^ Z.max 0 (Z.of_nat (String.length (pretty x)) - k) in
  let lo := x / p * p in
  let hi := lo + p in
  match reads_as x lo, reads_as x hi with
  | true, true => Some (if x - lo <=? hi - x then lo else hi)
  | true, false => Some lo
  | false, true => Some hi
  | false, false => None
  end.

(** The decimal with the fewest significant digits that reads back as [x];
    17 digits always suffice. *)
Definition shortest (x : Z) : Z :=
  default x (list_find is_Some (with_digits x <$> (Z.of_nat <$> seq 1 17)) ≫= snd).

Fixpoint dropZeros (s : string) : string :=
  match s with
  | String "0" s' => dropZeros s'
  | _ => s
  end.

(** [d.ddde+x]: the exponent notation of a positive integer, trailing zeros
    left out. *)
Definition exponential (v : Z) : string :=
  let ds := pretty v in
  match String.rev (dropZeros (String.rev ds)) with
  | String d EmptyString => String d EmptyString
  | String d more => String d ("." +:+ more)
  | EmptyString => "0"
  end +:+ "e+" +:+ pretty (Z.of_nat (String.length ds) - 1).

Definition unsigned_decimal (n : Z) : string :=
  let x := nearest_double n in
  if 2 ^ 1024 <=? x then "Infinity"
  else if x <? 10 ^ 21 then pretty (shortest x)
  else exponential (shortest x).

(** Number to string ([Number.prototype.toString], [String(n)], a template
    literal) for an integer-valued number: the digits of the shortest decimal
    that reads back as the number, written out in full below 1e21 and in
    exponent notation from there on. Fractional values are outside the
    model. *)
Definition decimal (n : Z) : string :=
  if n <? 0 then "-" +:+ unsigned_decimal (- n) else unsigned_decimal n.

(** ** Dates *)

(** [n] written with exactly [w] decimal digits (the low ones). *)
Fixpoint digits (w : nat) (n : Z) (acc : string) : string :=
  match w with
  | O => acc
  | S w' =>
      digits w' (n / 10)
        (String (ascii_of_nat (48 + Z.to_nat (n mod 10))) acc)
  end.

Definition pad (w : nat) (n : Z) : string := digits w n "".

(** The civil date of a day number counted from 1970-01-01, in the
    proleptic Gregorian calendar. *)
Definition civil_from_days (days : Z) : Z * Z * Z :=
  let z := days + 719468 in
  let era := z / 146097 in
  let doe := z - era * 146097 in
  let yoe := (doe - doe / 1460 + doe / 36524 - doe / 146096) / 365 in
  let doy := doe - (365 * yoe + yoe / 4 - yoe / 100) in
  let mp := (5 * doy + 2) / 153 in
  let d := doy - (153 * mp + 2) / 5 + 1 in
  let m := if mp <? 10 then mp + 3 else mp - 9 in
  let y := yoe + era * 400 + (if m <=? 2 then 1 else 0) in
  (y, m, d).

(** A time value is valid within 8.64e15 ms of the epoch. *)
Definition max_time : Z := 8640000000000000.

Definition year_text (y : Z) : string :=
  if (0 <=? y) && (y <=? 9999) then pad 4 y
  else (if y <? 0 then "-" else "+") +:+ pad 6 (Z.abs y).

(** [new Date(ms).toISOString()]: a [RangeError] on an invalid date. *)
Definition toISOString (ms : Z) : result string :=
  if (- max_time <=? ms) && (ms <=? max_time) then
    let '(y, m, d) := civil_from_days (ms / 86400000) in
    let t := ms mod 86400000 in
    Ok (year_text y +:+ "-" +:+ pad 2 m +:+ "-" +:+ pad 2 d +:+ "T"
        +:+ pad 2 (t / 3600000) +:+ ":" +:+ pad 2 (t / 60000 mod 60) +:+ ":"
        +:+ pad 2 (t / 1000 mod 60) +:+ "." +:+ pad 3 (t mod 1000) +:+ "Z")
  else Throw (RangeError "Invalid time value").

End Js.

Import Js.

(* ===================================================================== *)
(** * The platform: [fetch] and the Vercel request and response *)
(* ===================================================================== *)

Module Fetch.

(** The [Response] a [fetch] resolves to; [body] is what reading it whole
    ([arrayBuffer()], [text()]) gives, which may reject. *)
Record Response (B : Type) := {
  status : Z;
  statusText : string;
  body : result B
}.
Arguments status {B} _.
Arguments statusText {B} _.
Arguments body {B} _.

(** [resp.ok]: the status is in the range 200-299 (Fetch standard). *)
Definition ok {B} (resp : Response B) : bool :=
  (200 <=? status resp) && (status resp <=? 299).

End Fetch.

Module Vercel.

(** A query parameter is a string, or an array of strings when the
    parameter is repeated. *)
Inductive QueryValue :=
| QStr (s : string)
| QArr (ss : list string).

Record VercelRequest := {
  query : gmap string QueryValue
}.

(** The response under construction: the headers set so far, the status
    code and the JSON body once sent. *)
Record VercelResponse := {
  headers : gmap string string;
  statusCode : Z;
  sent : option Json
}.

Definition setHeader (name value : string) (res : VercelResponse) : VercelResponse :=
  {| headers := <[name := value]> (headers res);
     statusCode := statusCode res;
     sent := sent res |}.

Definition status (code : Z) (res : VercelResponse) : VercelResponse :=
  {| headers := headers res; statusCode := code; sent := sent res |}.

Definition json (b : Json) (res : VercelResponse) : VercelResponse :=
  {| headers := headers res; statusCode := statusCode res; sent := Some b |}.

(** The response as the platform hands it to a handler. *)
Definition fresh : VercelResponse :=
  {| headers := ∅; statusCode := 200; sent := None |}.

End Vercel.

(* ===================================================================== *)
(** * api/ttc-alerts.ts *)
(* ===================================================================== *)

Module TtcAlerts.
Import Fetch Vercel.

Definition TTC_ALERTS_FEED : string := "https://bustime.ttc.ca/gtfsrt/alerts".
Definition USER_AGENT : string := "GeoffDash/1.0 (ttc-alerts)".

(** ** The decoded feed, as far as the handler reads it

    The handler reads the decoded message as [any]; these records hold the
    fields it reads, under the names it reads them by. [None] is a field
    that reads as [undefined] or [null]. Enum codes are JavaScript
    numbers. *)

Record Translation := {
  text : option string
}.

Record TranslatedString := {
  translation : option (list Translation)
}.

(** A bound of an active period, in epoch seconds ([uint64] on the wire): a
    JavaScript number, or a [Long] object of that value. The decoder of
    gtfs-realtime-bindings hands every bound as a [Long]: the value that was
    sent, and zero, read off the prototype, for a bound that was not sent. *)
Inductive Seconds :=
| Num (n : Z)
| Long (n : Z).

Record TimeRange := {
  start : option Seconds;
  end_ : option Seconds
}.

Record TripDescriptor := {
  tripId : option string
}.

Record EntitySelector := {
  routeId : option string;
  stopId : option string;
  trip : option TripDescriptor
}.

Record Alert := {
  headerText : option TranslatedString;
  descriptionText : option TranslatedString;
  url : option TranslatedString;
  cause : option Z;
  effect : option Z;
  severity : option Z;
  activePeriod : option (list TimeRange);
  informedEntity : option (list EntitySelector)
}.

Record FeedEntity := {
  id : string;
  alert : option Alert
}.

Record FeedMessage := {
  entity : option (list FeedEntity)
}.

(** What the handler takes from outside: the upstream answer to
    [fetch(url, {headers: {'User-Agent': ua}})] and the protobuf decoder
    [FeedMessage.decode]. *)
Record Env := {
  fetch : string -> string -> result (Response (list Byte.byte));
  decode : list Byte.byte -> result FeedMessage
}.

(** ** The mapping *)

(** Truthiness of a string and of a number. *)
Definition truthy_string (s : string) : bool := negb (String.eqb s "").
Definition truthy_number (n : Z) : bool := negb (n =? 0).

(** [tx?.translation?.[0]?.text ? String(tx.translation[0].text) : undefined];
    [None] is [undefined]. *)
Definition pickText (tx : option TranslatedString) : option string :=
  match ((tx ≫= translation) ≫= (fun l : list Translation => l !! 0%nat)) ≫= text with
  | Some s => if truthy_string s then Some s else None
  | None => None
  end.

(** [v || null] on a string or [undefined]. *)
Definition string_or_null (v : option string) : Json :=
  match v with
  | Some s => if truthy_string s then JsonStr s else JsonNull
  | None => JsonNull
  end.

(** [v ?? null] on a number, and on a string. *)
Definition number_nullish_null (v : option Z) : Json :=
  match v with Some n => JsonNum n | None => JsonNull end.

Definition string_nullish_null (v : option string) : Json :=
  match v with Some s => JsonStr s | None => JsonNull end.

(** Truthiness of a bound: an object is truthy whatever it holds. *)
Definition truthy_seconds (t : Seconds) : bool :=
  match t with
  | Num n => truthy_number n
  | Long _ => true
  end.

(** [Number(t)]: a [Long] converts through its [toString], the decimal
    numeral of its value. The conversion and the product with 1000 are exact
    wherever the product is a valid time value, and stay beyond [max_time]
    where it is not. *)
Definition Number_ (t : Seconds) : Z :=
  match t with
  | Num n => n
  | Long n => n
  end.

(** [t ? new Date(Number(t) * 1000).toISOString() : null] *)
Definition instant (t : option Seconds) : result Json :=
  match t with
  | Some v =>
      if truthy_seconds v
      then do s <- toISOString (Number_ v * 1000); Ok (JsonStr s)
      else Ok JsonNull
  | None => Ok JsonNull
  end.

(** One element of [activePeriods]. *)
Definition mapPeriod (p : TimeRange) : result Json :=
  do s <- instant (start p);
  do e <- instant (end_ p);
  Ok (JsonObj [("start", s); ("end", e)]).

(** One element of [informed]. *)
Definition mapInformed (ie : EntitySelector) : Json :=
  JsonObj [("routeId", string_nullish_null (routeId ie));
           ("stopId", string_nullish_null (stopId ie));
           ("tripId", string_nullish_null (trip ie ≫= tripId))].

(** The object literal the [map] callback returns for the alert [a] of the
    entity [e]. *)
Definition mapAlert (e : FeedEntity) (a : Alert) : result Json :=
  do periods <- mapM mapPeriod (default [] (activePeriod a));
  Ok (JsonObj [("id", JsonStr (id e));
               ("header", string_or_null (pickText (headerText a)));
               ("description", string_or_null (pickText (descriptionText a)));
               ("url", string_or_null (pickText (url a)));
               ("cause", number_nullish_null (cause a));
               ("effect", number_nullish_null (effect a));
               ("severity", number_nullish_null (severity a));
               ("activePeriods", JsonArr periods);
               ("informed", JsonArr (mapInformed <$> default [] (informedEntity a)))]).

(** The [map] callback: [const a = e.alert], then reads of [a]. *)
Definition mapEntity (e : FeedEntity) : result Json :=
  match alert e with
  | Some a => mapAlert e a
  | None => Throw (TypeError "Cannot read properties of undefined (reading 'headerText')")
  end.

(** The [filter] callback: [e.alert] is truthy. *)
Definition hasAlert (e : FeedEntity) : bool :=
  match alert e with Some _ => true | None => false end.

(** [(feed.entity || []).filter(...).map(...)] *)
Definition mapFeed (feed : FeedMessage) : result (list Json) :=
  mapM mapEntity (List.filter hasAlert (default [] (entity feed))).

(** ** The handler *)

(** The body of the [try] block up to the point where [alerts] is known. *)
Definition attempt (env : Env) : result (list Json) :=
  do resp <- fetch env TTC_ALERTS_FEED USER_AGENT;
  if negb (ok resp)
  then Throw (Error ("TTC alerts fetch failed: " +:+ decimal (Fetch.status resp)
                     +:+ " " +:+ statusText resp))
  else
    do buf <- body resp;
    do feed <- decode env buf;
    mapFeed feed.

Definition successBody (alerts : list Json) : Json :=
  JsonObj [("source", JsonStr "bustime.ttc.ca");
           ("count", JsonNum (Z.of_nat (length alerts)));
           ("alerts", JsonArr alerts)].

Definition errorBody (err : Thrown) : Json :=
  JsonObj [("error", JsonStr (message_or_failed err))].

Definition handler (env : Env) (req : VercelRequest) (res : VercelResponse)
  : VercelResponse :=
  match attempt env with
  | Ok alerts =>
      let res := setHeader "Cache-Control" "s-maxage=60, stale-while-revalidate=300" res in
      let res := setHeader "Access-Control-Allow-Origin" "*" res in
      json (successBody alerts) (Vercel.status 200 res)
  | Throw err =>
      let res := setHeader "Access-Control-Allow-Origin" "*" res in
      json (errorBody err) (Vercel.status 500 res)
  end.

End TtcAlerts.

(* ===================================================================== *)
(** * api/envcan-alerts.ts *)
(* ===================================================================== *)

Module EnvcanAlerts.
Import Fetch Vercel.

Definition REGION_DEFAULT : string := "on61".
Definition USER_AGENT : string := "GeoffDash/1.0 (envcan-alerts)".

(** ** Values *)

(** What [XMLParser.parse] yields: text, numbers and booleans (tag values
    are parsed), a sequence for a repeated element, an object for an element
    with children or attributes (attribute names unprefixed, mixed text
    under ["#text"]). The keys of an object are distinct. The numbers are
    the integer-valued ones, [XNum n] being the Number nearest to [n]; a text
    that reads as a fraction is outside the model. *)
#[warnings="-register-all"] Inductive Xml :=
| XStr (s : string)
| XNum (n : Z)
| XBool (b : bool)
| XArr (items : list Xml)
| XObj (props : list (string * Xml)).

(** The built-in functions a read of one of the handler's property names
    can reach through a prototype. *)
Inductive Builtin :=
| String_link
| String_toString
| String_trim
| Number_toString
| Boolean_toString
| Array_toString
| Object_toString
| Function_toString.

(** The values the handler computes with. *)
Inductive Val :=
| Undefined
| Null
| Fn (b : Builtin)
| Tree (x : Xml).

Definition str (s : string) : Val := Tree (XStr s).

Definition truthy (v : Val) : bool :=
  match v with
  | Undefined | Null => false
  | Fn _ => true
  | Tree (XStr s) => negb (String.eqb s "")
  | Tree (XNum n) => negb (n =? 0)
  | Tree (XBool b) => b
  | Tree (XArr _) | Tree (XObj _) => true
  end.

Definition nullish (v : Val) : bool :=
  match v with Undefined | Null => true | _ => false end.

(** [typeof v === 'string'] *)
Definition is_string (v : Val) : bool :=
  match v with Tree (XStr _) => true | _ => false end.

(** ** Property reads *)

(** The inherited members, among the names the handler reads ([feed],
    [entry], [id], [link], [href], [updated], [published], [title],
    [summary], [#text], [toString], [trim]). *)
Definition prototype (v : Val) : list (string * Builtin) :=
  match v with
  | Undefined | Null => []
  | Fn _ => [("toString", Function_toString)]
  | Tree (XStr _) =>
      [("link", String_link); ("toString", String_toString); ("trim", String_trim)]
  | Tree (XNum _) => [("toString", Number_toString)]
  | Tree (XBool _) => [("toString", Boolean_toString)]
  | Tree (XArr _) => [("toString", Array_toString)]
  | Tree (XObj _) => [("toString", Object_toString)]
  end%string.

Definition inherited (v : Val) (k : string) : Val :=
  match assoc k (prototype v) with
  | Some b => Fn b
  | None => Undefined
  end.

(** [v.k] and [v[k]] for a name [k]: an own property of an object first,
    then the prototype; a [TypeError] on [undefined] and [null]. *)
Definition get (v : Val) (k : string) : result Val :=
  match v with
  | Undefined =>
      Throw (TypeError ("Cannot read properties of undefined (reading '" +:+ k +:+ "')"))
  | Null =>
      Throw (TypeError ("Cannot read properties of null (reading '" +:+ k +:+ "')"))
  | Tree (XObj props) =>
      match assoc k props with
      | Some x => Ok (Tree x)
      | None => Ok (inherited v k)
      end
  | _ => Ok (inherited v k)
  end.

(** [v?.k] *)
Definition get_opt (v : Val) (k : string) : result Val :=
  if nullish v then Ok Undefined else get v k.

(** [a || b], [b] evaluated only when [a] is falsy. *)
Definition or_else (a b : result Val) : result Val :=
  do x <- a; if truthy x then Ok x else b.

(** ** Conversion to string and the built-in methods *)

Definition name (b : Builtin) : string :=
  match b with
  | String_link => "link"
  | String_trim => "trim"
  | _ => "toString"
  end.

Definition native (b : Builtin) : string :=
  "function " +:+ name b +:+ "() { [native code] }".

(** ToString of a parsed value. A sequence is joined with commas
    ([Array.prototype.toString]); an object goes through its [toString],
    which is [Object.prototype.toString] unless a child element of that name
    hides it, and then no conversion exists. *)
Fixpoint xml_to_string (x : Xml) : result string :=
  match x with
  | XStr s => Ok s
  | XNum n => Ok (decimal n)
  | XBool b => Ok (if b then "true" else "false")
  | XArr items =>
      do parts <-
        (fix each (l : list Xml) : result (list string) :=
           match l with
           | [] => Ok []
           | y :: l' => do s <- xml_to_string y; do r <- each l'; Ok (s :: r)
           end) items;
      Ok (join parts)
  | XObj props =>
      match assoc "toString" props with
      | Some _ => Throw (TypeError "Cannot convert object to primitive value")
      | None => Ok "[object Object]"
      end
  end%string.

Definition ToString (v : Val) : result string :=
  match v with
  | Undefined => Ok "undefined"
  | Null => Ok "null"
  | Fn b => Ok (native b)
  | Tree x => xml_to_string x
  end%string.

(** [Object.prototype.toString.call(v)] *)
Definition class_text (v : Val) : string :=
  match v with
  | Undefined => "[object Undefined]"
  | Null => "[object Null]"
  | Fn _ => "[object Function]"
  | Tree (XStr _) => "[object String]"
  | Tree (XNum _) => "[object Number]"
  | Tree (XBool _) => "[object Boolean]"
  | Tree (XArr _) => "[object Array]"
  | Tree (XObj _) => "[object Object]"
  end.

Definition incompatible (b : Builtin) : Thrown :=
  TypeError (name b +:+ " requires a compatible receiver").

Definition not_coercible (b : Builtin) : Thrown :=
  TypeError ("String.prototype." +:+ name b +:+ " called on null or undefined").

(** The call [b.call(this)] of a built-in without arguments. *)
Definition run (b : Builtin) (this : Val) : result Val :=
  match b with
  | String_toString =>
      match this with
      | Tree (XStr _) => Ok this
      | _ => Throw (incompatible b)
      end
  | Number_toString =>
      match this with
      | Tree (XNum n) => Ok (str (decimal n))
      | _ => Throw (incompatible b)
      end
  | Boolean_toString =>
      match this with
      | Tree (XBool c) => Ok (str (if c then "true" else "false"))
      | _ => Throw (incompatible b)
      end
  | Function_toString =>
      match this with
      | Fn f => Ok (str (native f))
      | _ => Throw (incompatible b)
      end
  | Object_toString => Ok (str (class_text this))
  | Array_toString =>
      match this with
      | Undefined | Null =>
          Throw (TypeError "Array.prototype.toString called on null or undefined")
      | Tree (XArr items) => do s <- xml_to_string (XArr items); Ok (str s)
      | _ => Ok (str (class_text this))
      end
  | String_trim =>
      if nullish this then Throw (not_coercible b)
      else do s <- ToString this; Ok (str (trim s))
  | String_link =>
      if nullish this then Throw (not_coercible b)
      else
        do s <- ToString this;
        let q := String "034"%char "" in
        Ok (str ("<a href=" +:+ q +:+ "undefined" +:+ q +:+ ">" +:+ s +:+ "</a>"))
  end%string.

(** The method call [this.k()]. *)
Definition invoke (this : Val) (k : string) : result Val :=
  do f <- get this k;
  match f with
  | Fn b => run b this
  | _ => Throw (TypeError (k +:+ " is not a function"))
  end.

(** [this?.k()] *)
Definition invoke_opt (this : Val) (k : string) : result Val :=
  if nullish this then Ok Undefined else invoke this k.

(** ** The mapping *)

(** The object literal the [map] callback returns. *)
Record WeatherEntry := {
  id : Val;
  title : Val;
  updatedISO : Val;
  summary : Val;
  link : Val
}.

(** [e.link?.href] *)
Definition link_href (e : Val) : result Val :=
  do l <- get e "link"; get_opt l "href".

(** [id: e.id || e.link?.href || e.updated] *)
Definition entry_id (e : Val) : result Val :=
  or_else (or_else (get e "id") (link_href e)) (get e "updated").

(** [title: (e.title || '').toString().trim()] *)
Definition entry_title (e : Val) : result Val :=
  do t <- or_else (get e "title") (Ok (str ""));
  do t' <- invoke t "toString";
  invoke t' "trim".

(** [updatedISO: e.updated || e.published || null] *)
Definition entry_updatedISO (e : Val) : result Val :=
  or_else (or_else (get e "updated") (get e "published")) (Ok Null).

(** [summary: (typeof e.summary === 'string' ? e.summary
                 : e.summary?.['#text'])?.trim() || ''] *)
Definition entry_summary (e : Val) : result Val :=
  or_else
    (do s <- get e "summary";
     do s' <- (if is_string s then Ok s else get_opt s "#text");
     invoke_opt s' "trim")
    (Ok (str "")).

(** [link: e.link?.href || null] *)
Definition entry_link (e : Val) : result Val :=
  or_else (link_href e) (Ok Null).

(** The [map] callback; the properties of the literal are evaluated in the
    order they are written. *)
Definition mapEntry (e : Val) : result WeatherEntry :=
  do id <- entry_id e;
  do title <- entry_title e;
  do updatedISO <- entry_updatedISO e;
  do summary <- entry_summary e;
  do link <- entry_link e;
  Ok {| id := id; title := title; updatedISO := updatedISO;
        summary := summary; link := link |}.

(** [Array.isArray(rawEntries) ? rawEntries : rawEntries ? [rawEntries] : []] *)
Definition toArray (rawEntries : Val) : list Val :=
  match rawEntries with
  | Tree (XArr items) => Tree <$> items
  | _ => if truthy rawEntries then [rawEntries] else []
  end.

(** [feed?.feed?.entry] *)
Definition entryNode (feed : Val) : result Val :=
  do f <- get_opt feed "feed"; get_opt f "entry".

(** ** Serialisation *)

Fixpoint xml_json (x : Xml) : Json :=
  match x with
  | XStr s => JsonStr s
  | XNum n => JsonNum n
  | XBool b => JsonBool b
  | XArr items => JsonArr (xml_json <$> items)
  | XObj props => JsonObj ((fun kv => (fst kv, xml_json (snd kv))) <$> props)
  end.

(** [JSON.stringify] of a property value: [None] when the property is left
    out ([undefined], a function). *)
Definition stringify (v : Val) : option Json :=
  match v with
  | Undefined | Fn _ => None
  | Null => Some JsonNull
  | Tree x => Some (xml_json x)
  end.

Definition entry_json (w : WeatherEntry) : Json :=
  literal [("id", stringify (id w));
           ("title", stringify (title w));
           ("updatedISO", stringify (updatedISO w));
           ("summary", stringify (summary w));
           ("link", stringify (link w))].

(** ** The handler *)

Record Env := {
  fetch : string -> string -> result (Response string);
  parse : string -> result Xml
}.

Definition truthy_query (v : QueryValue) : bool :=
  match v with
  | QStr s => negb (String.eqb s "")
  | QArr _ => true
  end.

(** [(req.query.region as string) || REGION_DEFAULT] *)
Definition region (req : VercelRequest) : QueryValue :=
  match query req !! "region" with
  | Some v => if truthy_query v then v else QStr REGION_DEFAULT
  | None => QStr REGION_DEFAULT
  end.

(** A region inside a template literal. *)
Definition interpolate (v : QueryValue) : string :=
  match v with
  | QStr s => s
  | QArr ss => join ss
  end.

Definition url (region : QueryValue) : string :=
  "https://weather.gc.ca/rss/battleboard/" +:+ interpolate region +:+ "_e.xml".

Definition query_json (v : QueryValue) : Json :=
  match v with
  | QStr s => JsonStr s
  | QArr ss => JsonArr (JsonStr <$> ss)
  end.

(** The [try] block from the upstream answer [r] on, up to the point where
    [entries] is known. *)
Definition afterFetch (env : Env) (r : result (Response string))
  : result (list WeatherEntry) :=
  do r <- r;
  if negb (ok r)
  then Throw (Error ("EnvCan fetch failed: " +:+ decimal (Fetch.status r)
                     +:+ " " +:+ statusText r))
  else
    do xml <- body r;
    do feed <- parse env xml;
    do rawEntries <- entryNode (Tree feed);
    mapM mapEntry (toArray rawEntries).

Definition attempt (env : Env) (req : VercelRequest) : result (list WeatherEntry) :=
  afterFetch env (fetch env (url (region req)) USER_AGENT).

Definition successBody (region : QueryValue) (entries : list WeatherEntry) : Json :=
  JsonObj [("region", query_json region);
           ("entries", JsonArr (entry_json <$> entries))].

Definition errorBody (err : Thrown) : Json :=
  JsonObj [("error", JsonStr (message_or_failed err))].

Definition handler (env : Env) (req : VercelRequest) (res : VercelResponse)
  : VercelResponse :=
  match attempt env req with
  | Ok entries =>
      let res := setHeader "Cache-Control" "s-maxage=120, stale-while-revalidate=600" res in
      let res := setHeader "Access-Control-Allow-Origin" "*" res in
      json (successBody (region req) entries) (Vercel.status 200 res)
  | Throw err =>
      let res := setHeader "Access-Control-Allow-Origin" "*" res in
      json (errorBody err) (Vercel.status 500 res)
  end.

End EnvcanAlerts.

(* ===================================================================== *)
(** * The dashboard component: its helpers and state updates *)
(* ===================================================================== *)

Module Dashboard.
Import Fetch.

(** ** Numbers *)

(** A JavaScript number as the component computes with it: an integer, or
    [NaN] (what [Number] gives for a text that is no numeral). Fractions and
    the infinities are outside the model. *)
Inductive Number :=
| NaN
| Int (z : Z).

(** [a + b], [a - b], [a * b] *)
Definition plus (a b : Number) : Number :=
  match a, b with Int x, Int y => Int (x + y) | _, _ => NaN end.

Definition minus (a b : Number) : Number :=
  match a, b with Int x, Int y => Int (x - y) | _, _ => NaN end.



(** [Math.max], [Math.min]: [NaN] when either argument is. *)
Definition Math_max (a b : Number) : Number :=
  match a, b with Int x, Int y => Int (Z.max x y) | _, _ => NaN end.

Definition Math_min (a b : Number) : Number :=
  match a, b with Int x, Int y => Int (Z.min x y) | _, _ => NaN end.

(** [n || d] on numbers: zero and [NaN] are falsy. *)
Definition or_default (n d : Number) : Number :=
  match n with
  | Int z => if z =? 0 then d else n
  | NaN => d
  end.

(** ** Pocket utils *)

Definition clamp (n min max : Number) : Number := Math_min (Math_max n min) max.

(** [code === k] and [[k1, ..., kn].includes(code)] *)
Definition equals (code : Number) (k : Z) : bool :=
  match code with Int z => z =? k | NaN => false end.

Definition includes (ks : list Z) (code : Number) : bool := existsb (equals code) ks.

Definition weatherDesc (code : Number) : string :=
  if equals code 0 then "Clear sky"
  else if equals code 1 || equals code 2 then "Mostly clear"
  else if equals code 3 then "Overcast"
  else if equals code 45 || equals code 48 then "Fog"
  else if includes [51; 53; 55] code then "Drizzle"
  else if includes [56; 57] code then "Freezing drizzle"
  else if includes [61; 63; 65] code then "Rain"
  else if includes [66; 67] code then "Freezing rain"
  else if includes [71; 73; 75; 77] code then "Snow"
  else if includes [80; 81; 82] code then "Rain showers"
  else if includes [85; 86] code then "Snow showers"
  else if equals code 95 then "Thunderstorm"
  else if equals code 96 || equals code 99 then "Thunderstorm w/ hail"
  else "—".

Definition weatherIcon (code : Number) : string :=
  if equals code 0 then "☀️"
  else if equals code 1 || equals code 2 then "🌤️"
  else if equals code 3 then "☁️"
  else if equals code 45 || equals code 48 then "🌫️"
  else if includes [51; 53; 55; 61; 63; 65; 80; 81; 82] code then "🌧️"
  else if includes [56; 57; 66; 67] code then "🌧️"
  else if includes [71; 73; 75; 77; 85; 86] code then "🌨️"
  else if includes [95; 96; 99] code then "⛈️"
  else "⛅".

(** ** fetchJSON *)

(** [fetchJSON(url, opts)], given what the [fetch] resolves or rejects with;
    the body of the response is what [res.json()] gives. Every failure is
    caught and answered with [null] (the warning on the console is not
    modelled). *)
Definition fetchJSON (outcome : result (Response Json)) : Json :=
  match (do res <- outcome;
         if negb (ok res)
         then Throw (Error (decimal (Fetch.status res) +:+ " " +:+ statusText res))
         else body res) with
  | Ok data => data
  | Throw _ => JsonNull
  end.

(** Truthiness of a JSON value. *)
Definition truthy (j : Json) : bool :=
  match j with
  | JsonNull => false
  | JsonBool b => b
  | JsonNum n => negb (n =? 0)
  | JsonStr s => negb (String.eqb s "")
  | JsonArr _ | JsonObj _ => true
  end.

(** [refreshAgentOps]: [setOllamaOK(!!oll)] for the answer [oll] of the
    health endpoint. *)
Definition ollamaOK (health : result (Response Json)) : bool :=
  truthy (fetchJSON health).

(** ** Quick capture *)

Record CaptureItem := {
  id : string;
  text : string;
  ts : Z
}.

Record CaptureState := {
  capture : string;
  captureItems : list CaptureItem
}.

(** [submitCapture()], with the values [crypto.randomUUID()] and [Date.now()]
    give; beside the new state, the text that is posted to the capture
    endpoint, if any. *)
Definition submitCapture (uuid : string) (now : Z) (st : CaptureState)
  : CaptureState * option string :=
  let text := trim (capture st) in
  if String.eqb text "" then (st, None)
  else
    ({| capture := "";
        captureItems := take 20 ({| id := uuid; text := text; ts := now |}
                                   :: captureItems st) |},
     Some text).

(** The delete button of the item [cid]:
    [setCaptureItems((prev) => prev.filter((x) => x.id !== c.id))]. *)
Definition removeCapture (cid : string) (st : CaptureState) : CaptureState :=
  {| capture := capture st;
     captureItems := List.filter (fun x => negb (String.eqb (id x) cid)) (captureItems st) |}.

(** ** Settings: timer lengths and protein *)

Record Settings := {
  workMin : Number;
  breakMin : Number;
  proteinGoal : Number;
  proteinToday : Number
}.

(** What is read back from local storage: [Number(stored) || fallback]. *)
Definition restore (work break_ goal today : Number) : Settings :=
  {| workMin := or_default work (Int 25);
     breakMin := or_default break_ (Int 5);
     proteinGoal := or_default goal (Int 130);
     proteinToday := or_default today (Int 0) |}.

(** The buttons and inputs that change a setting; a typed value is the
    number [Number(e.target.value || 0)]. *)
Inductive Press :=
| WorkMinus
| WorkPlus
| WorkTyped (n : Number)
| BreakMinus
| BreakPlus
| BreakTyped (n : Number)
| AddProtein (n : Number)
| ProteinReset
| GoalTyped (n : Number).

(** [addProtein(n)]: [setProteinToday((p) => clamp(p + n, 0, 10000))] *)
Definition addProtein (n : Number) (p : Number) : Number :=
  clamp (plus p n) (Int 0) (Int 10000).

Definition with_workMin (v : Number) (s : Settings) : Settings :=
  {| workMin := v; breakMin := breakMin s;
     proteinGoal := proteinGoal s; proteinToday := proteinToday s |}.

Definition with_breakMin (v : Number) (s : Settings) : Settings :=
  {| workMin := workMin s; breakMin := v;
     proteinGoal := proteinGoal s; proteinToday := proteinToday s |}.

Definition with_proteinGoal (v : Number) (s : Settings) : Settings :=
  {| workMin := workMin s; breakMin := breakMin s;
     proteinGoal := v; proteinToday := proteinToday s |}.

Definition with_proteinToday (v : Number) (s : Settings) : Settings :=
  {| workMin := workMin s; breakMin := breakMin s;
     proteinGoal := proteinGoal s; proteinToday := v |}.

Definition press (e : Press) (s : Settings) : Settings :=
  match e with
  | WorkMinus => with_workMin (clamp (minus (workMin s) (Int 5)) (Int 5) (Int 180)) s
  | WorkPlus => with_workMin (clamp (plus (workMin s) (Int 5)) (Int 5) (Int 180)) s
  | WorkTyped n => with_workMin (clamp n (Int 5) (Int 180)) s
  | BreakMinus => with_breakMin (clamp (minus (breakMin s) (Int 1)) (Int 1) (Int 60)) s
  | BreakPlus => with_breakMin (clamp (plus (breakMin s) (Int 1)) (Int 1) (Int 60)) s
  | BreakTyped n => with_breakMin (clamp n (Int 1) (Int 60)) s
  | AddProtein n => with_proteinToday (addProtein n (proteinToday s)) s
  | ProteinReset => with_proteinToday (Int 0) s
  | GoalTyped n => with_proteinGoal (clamp n (Int 40) (Int 300)) s
  end.

(** ** Focus timer *)




(** ** Switches kept in local storage *)

(** The browser, as far as the switches read it: the local storage and what
    [window.matchMedia('(prefers-color-scheme: dark)').matches] gives, [None]
    where there is no [matchMedia]. *)
Record Window := {
  localStorage : gmap string string;
  prefersDark : option bool
}.

(** The initial dark mode, [None] being [undefined]; without a [window] it
    is [true]. *)
Definition initialDarkMode (window : option Window) : option bool :=
  match window with
  | None => Some true
  | Some w =>
      match localStorage w !! "geoff-dark"%string with
      | Some saved => Some (String.eqb saved "1")
      | None => prefersDark w
      end
  end.

(** [darkMode ? '1' : '0'] *)
Definition flag (b : option bool) : string :=
  match b with Some true => "1" | _ => "0" end.

(** The effect that stores the switch:
    [localStorage.setItem('geoff-dark', darkMode ? '1' : '0')]. *)
Definition storeDarkMode (darkMode : option bool) (w : Window) : Window :=
  {| localStorage := <["geoff-dark"%string := flag darkMode]> (localStorage w);
     prefersDark := prefersDark w |}.

(** [localStorage.getItem("geoff-autorun") === "1"] and the effect that
    stores it. *)
Definition initialAutoRun (w : Window) : bool :=
  match localStorage w !! "geoff-autorun"%string with
  | Some saved => String.eqb saved "1"
  | None => false
  end.

Definition storeAutoRun (autoRun : bool) (w : Window) : Window :=
  {| localStorage := <["geoff-autorun"%string := flag (Some autoRun)]> (localStorage w);
     prefersDark := prefersDark w |}.

End Dashboard.

(* ===================================================================== *)
(** * Sample feeds *)
(* ===================================================================== *)

Module Samples.
Import Fetch Vercel.

Definition request (q : list (string * QueryValue)) : VercelRequest :=
  {| query := list_to_map q |}.

Definition answer {B} (code : Z) (reason : string) (b : B) : result (Response B) :=
  Ok {| Fetch.status := code; Fetch.statusText := reason; Fetch.body := Ok b |}.

(** ** Transit *)

Definition text_of (s : string) : TtcAlerts.TranslatedString :=
  {| TtcAlerts.translation := Some [ {| TtcAlerts.text := Some s |} ] |}.

(** An active period as the decoder hands it for the bounds the feed sent,
    [None] for a bound it did not send: both bounds are [Long] objects, the
    one that was not sent a [Long] zero. *)
Definition period (start end_ : option Z) : TtcAlerts.TimeRange :=
  {| TtcAlerts.start := Some (TtcAlerts.Long (default 0 start));
     TtcAlerts.end_ := Some (TtcAlerts.Long (default 0 end_)) |}.

(** An alert with a header, no url, one active period that was sent with
    only a start. *)
Definition lineClosure : TtcAlerts.Alert :=
  {| TtcAlerts.headerText := Some (text_of "Line closure");
     TtcAlerts.descriptionText := None;
     TtcAlerts.url := None;
     TtcAlerts.cause := None;
     TtcAlerts.effect := Some 1;
     TtcAlerts.severity := None;
     TtcAlerts.activePeriod :=
       Some [ period (Some 1700000000) None ];
     TtcAlerts.informedEntity :=
       Some [ {| TtcAlerts.routeId := Some "501"%string;
                 TtcAlerts.stopId := None;
                 TtcAlerts.trip := None |} ] |}.

Definition withAlert : TtcAlerts.FeedEntity :=
  {| TtcAlerts.id := "a1"; TtcAlerts.alert := Some lineClosure |}.

Definition withoutAlert : TtcAlerts.FeedEntity :=
  {| TtcAlerts.id := "v7"; TtcAlerts.alert := None |}.

Definition twoEntities : TtcAlerts.FeedMessage :=
  {| TtcAlerts.entity := Some [withAlert; withoutAlert] |}.

(** An upstream that answers every request with [code reason] and a body
    that decodes to [feed]. *)
Definition transit (code : Z) (reason : string) (feed : TtcAlerts.FeedMessage)
  : TtcAlerts.Env :=
  {| TtcAlerts.fetch := fun _ _ => answer code reason [];
     TtcAlerts.decode := fun _ => Ok feed |}.

(** ** Weather *)

Definition weather (code : Z) (reason : string) (feed : EnvcanAlerts.Xml)
  : EnvcanAlerts.Env :=
  {| EnvcanAlerts.fetch := fun _ _ => answer code reason ""%string;
     EnvcanAlerts.parse := fun _ => Ok feed |}.

Import EnvcanAlerts.

Definition feedOf (entry : list (string * Xml)) : Xml :=
  XObj [("feed", XObj (("title", XStr "Toronto - Weather Alert") :: entry))].

(** [<entry><title> Winter Storm Watch </title></entry>] *)
Definition stormWatch : Xml :=
  XObj [("title", XStr " Winter Storm Watch ")].

(** An entry whose summary element has an attribute and a text that reads
    as a number: [<summary type="html">2024</summary>]. *)
Definition numericSummary : Xml :=
  XObj [("id", XStr "tag:weather.gc.ca,2024:on61_w1");
        ("title", XStr "Fog advisory");
        ("updated", XStr "2024-01-05T10:00:00Z");
        ("summary", XObj [("#text", XNum 2024); ("type", XStr "html")])].

Definition advisory : Xml :=
  XObj [("id", XStr "tag:weather.gc.ca,2024:on61_w2");
        ("title", XStr "Fog advisory");
        ("link", XObj [("href", XStr "https://weather.gc.ca/warnings/")]);
        ("updated", XStr "2024-01-05T10:00:00Z");
        ("summary", XObj [("#text", XStr " Dense fog. "); ("type", XStr "html")])].

(** An entry without a provider id: the permalink stands in. *)
Definition noProviderId : Xml :=
  XObj [("title", XStr "Rainfall warning");
        ("link", XObj [("href", XStr "https://weather.gc.ca/warnings/r1")]);
        ("updated", XStr "2024-01-06T08:00:00Z")].

Definition oneStormWatch : Env := weather 200 "OK" (feedOf [("entry", stormWatch)]).

Definition oneNumericSummary : Env := weather 200 "OK" (feedOf [("entry", numericSummary)]).

Definition threeEntries : Env :=
  weather 200 "OK" (feedOf [("entry", XArr [advisory; stormWatch; noProviderId])]).

Definition noEntries : Env := weather 200 "OK" (feedOf []).

Definition notFound : Env := weather 404 "Not Found" (feedOf []).

End Samples.

(* ===================================================================== *)
(** * The vocabulary of the specification *)
(* ===================================================================== *)

Module Spec.
Import TtcAlerts.

(** "The first available localized text value from the source's
    repeated-translation structure, or absent if none present": the text of
    the first translation when there is one and it is not empty; absent is the
    JSON null. *)
Definition localized (tx : option TranslatedString) : Json :=
  match tx with
  | Some {| translation := Some (first :: _) |} =>
      match text first with
      | Some s => if decide (s = ""%string) then JsonNull else JsonStr s
      | None => JsonNull
      end
  | _ => JsonNull
  end.

(** "Converted to timestamp strings only when present and non-zero/non-null;
    absent fields become explicit nulls": the JSON value [j] the specification
    gives a bound of so many epoch seconds, [None] for a bound that the feed
    did not send. *)
Definition bound_json (sent : option Z) (j : Json) : Prop :=
  match sent with
  | Some n =>
      if decide (n = 0) then j = JsonNull
      else exists iso, toISOString (n * 1000) = Ok iso /\ j = JsonStr iso
  | None => j = JsonNull
  end.

(** [j] is the JSON value of the bound [t] as the handler reads it: null for
    a bound that reads as [undefined], [null] or the number zero, and the
    timestamp of its seconds for any other number and for every [Long]
    object, a [Long] zero included. *)
Definition timestamp_of (t : option Seconds) (j : option Json) : Prop :=
  match t with
  | None | Some (Num 0) => j = Some JsonNull
  | Some (Num n) | Some (Long n) =>
      exists iso, toISOString (n * 1000) = Ok iso /\ j = Some (JsonStr iso)
  end.

(** The shape of one element of [activePeriods]. *)
Definition period_shape (p : TimeRange) (j : Json) : Prop :=
  keys j = ["start"; "end"]%string
  /\ timestamp_of (start p) (member "start" j)
  /\ timestamp_of (end_ p) (member "end" j).

(** [needle] occurs in [s]. *)
Definition contains (needle s : string) : Prop :=
  exists before after, s = before +:+ needle +:+ after.

(** The two answers a handler can give on the response [res] it is handed:
    200 with a caching hint and a body, or 500 with the message of what was
    caught. *)
Definition succeeded (res : Vercel.VercelResponse) (cache : string) (b : Json)
  : Vercel.VercelResponse :=
  Vercel.json b (Vercel.status 200
    (Vercel.setHeader "Access-Control-Allow-Origin" "*"
       (Vercel.setHeader "Cache-Control" cache res))).

Definition failed (res : Vercel.VercelResponse) (err : Thrown) : Vercel.VercelResponse :=
  Vercel.json (JsonObj [("error", JsonStr (message_or_failed err))])
    (Vercel.status 500 (Vercel.setHeader "Access-Control-Allow-Origin" "*" res)).

(** A bound of an active period that the handler can turn into JSON: it is
    absent, zero, or within the range of [Date] once in milliseconds. *)
Definition in_date_range (t : option Seconds) : bool :=
  match t with
  | Some (Num n) => (n =? 0) || ((- max_time <=? n * 1000) && (n * 1000 <=? max_time))
  | Some (Long n) => (- max_time <=? n * 1000) && (n * 1000 <=? max_time)
  | None => true
  end.

Definition period_in_range (p : TimeRange) : bool :=
  in_date_range (start p) && in_date_range (end_ p).

(** Every bound of every active period of every alert of the feed is in
    range. *)
Definition feed_in_range (feed : FeedMessage) : bool :=
  forallb (fun e => match alert e with
                    | Some a => forallb period_in_range (default [] (activePeriod a))
                    | None => true
                    end)
          (default [] (entity feed)).

(** [v ?? null] as JSON, for an optional string. *)
Definition nullable (v : option string) : Json :=
  match v with Some s => JsonStr s | None => JsonNull end.

End Spec.

Module MoreSamples.
Import Fetch Vercel TtcAlerts.

(** An alert whose second period ends far beyond the range of [Date]. *)
Definition farFuture : Alert :=
  {| headerText := None; descriptionText := None; url := None;
     cause := Some 0; effect := None; severity := None;
     activePeriod := Some [ Samples.period (Some 1700000000) None;
                            Samples.period None (Some 10000000000000) ];
     informedEntity := Some [ {| routeId := Some ""%string; stopId := None;
                                 trip := Some {| tripId := Some "t9"%string |} |} ] |}.

(** An alert with a cause code of zero that informs a selector with an
    empty route id and a trip. *)
Definition detour : Alert :=
  {| headerText := Some {| translation := Some [ {| text := Some ""%string |} ] |};
     descriptionText := None; url := None;
     cause := Some 0; effect := None; severity := Some 3;
     activePeriod := Some [ Samples.period None (Some 1700003600) ];
     informedEntity := Some [ {| routeId := Some ""%string; stopId := None;
                                 trip := Some {| tripId := Some "t9"%string |} |};
                              {| routeId := Some "504"%string; stopId := Some "s1"%string;
                                 trip := None |} ] |}.

Definition outOfRange : FeedMessage :=
  {| entity := Some [Samples.withAlert; {| id := "a2"; alert := Some farFuture |}] |}.

Definition sameIdTwice : FeedMessage :=
  {| entity := Some [Samples.withAlert; Samples.withoutAlert; Samples.withAlert] |}.

(** An upstream that cannot be reached, and a decoder that rejects the
    payload. *)
Definition unreachable : Env :=
  {| fetch := fun _ _ => Throw (TypeError "fetch failed");
     decode := fun _ => Ok Samples.twoEntities |}.

Definition malformed : Env :=
  {| fetch := fun _ _ => Samples.answer 200 "OK" [];
     decode := fun _ => Throw (Error "index out of range: 3 + 10 > 5") |}.

Definition brokenXml : EnvcanAlerts.Env :=
  {| EnvcanAlerts.fetch := fun _ _ => Samples.answer 200 "OK" "<feed"%string;
     EnvcanAlerts.parse := fun _ => Throw NoMessage |}.

(** A response on which the platform has already set a header. *)
Definition traced : VercelResponse :=
  {| headers := {[ "X-Request-Id"%string := "r-42"%string ]};
     statusCode := 200; sent := None |}.

(** Weather feeds with a title that carries an attribute, an empty entry
    element, and a repeated region parameter. *)
Definition typedTitle : EnvcanAlerts.Xml :=
  EnvcanAlerts.XObj
    [("title", EnvcanAlerts.XObj [("#text", EnvcanAlerts.XStr "Snow squall watch");
                                  ("type", EnvcanAlerts.XStr "text")]);
     ("summary", EnvcanAlerts.XObj [("#text", EnvcanAlerts.XStr " Squalls. ");
                                    ("type", EnvcanAlerts.XStr "html")]);
     ("updated", EnvcanAlerts.XStr "2024-01-07T09:00:00Z")].

(** An entry whose provider id reads as the number zero:
    [<id>0</id>]. *)
Definition zeroId : EnvcanAlerts.Xml :=
  EnvcanAlerts.XObj
    [("id", EnvcanAlerts.XNum 0);
     ("title", EnvcanAlerts.XStr "Special weather statement");
     ("link", EnvcanAlerts.XObj
                [("href", EnvcanAlerts.XStr "https://weather.gc.ca/warnings/z0")]);
     ("updated", EnvcanAlerts.XStr "2024-01-08T07:00:00Z")].

(** An entry whose title reads as a number. *)
Definition numericTitle : EnvcanAlerts.Xml :=
  EnvcanAlerts.XObj [("title", EnvcanAlerts.XNum (10 ^ 21))].

(** The children and attributes of a parsed element. *)
Definition propsOf (x : EnvcanAlerts.Xml) : list (string * EnvcanAlerts.Xml) :=
  match x with
  | EnvcanAlerts.XObj props => props
  | _ => []
  end.

Definition emptyEntry : EnvcanAlerts.Env :=
  Samples.weather 200 "OK" (Samples.feedOf [("entry", EnvcanAlerts.XStr "")]).

Definition oneBadOfThree : EnvcanAlerts.Env :=
  Samples.weather 200 "OK"
    (Samples.feedOf [("entry", EnvcanAlerts.XArr [Samples.advisory;
                                                  Samples.numericSummary;
                                                  Samples.stormWatch])]).

End MoreSamples.

Module FeedShape.
Import EnvcanAlerts.

(** "First non-empty of three fallbacks": a value is empty when it is
    missing ([undefined] or [null]) or is the empty string. *)
Definition non_empty (v : Val) : bool :=
  match v with
  | Undefined | Null => false
  | Tree (XStr s) => negb (String.eqb s "")
  | _ => true
  end.

Definition first_non_empty (a b c : Val) : Val :=
  if non_empty a then a else if non_empty b then b else c.

(** A parsed value that has a conversion to string: no object in it, taken
    alone or reached through sequences, has a child element named
    [toString]. *)
Fixpoint stringable (x : Xml) : bool :=
  match x with
  | XArr items => forallb stringable items
  | XObj props =>
      match assoc "toString" props with
      | Some _ => false
      | None => true
      end
  | _ => true
  end.

(** The title of the entry is absent, falsy, or has a conversion to
    string. *)
Definition title_maps (e : Xml) : bool :=
  match e with
  | XObj props =>
      match assoc "title" props with
      | Some t => if truthy (Tree t) then stringable t else true
      | None => true
      end
  | _ => true
  end.

(** The summary of the entry is not an object whose text is something else
    than a string. *)
Definition summary_maps (e : Xml) : bool :=
  match e with
  | XObj props =>
      match assoc "summary" props with
      | Some (XObj sprops) =>
          match assoc "#text" sprops with
          | Some (XStr _) | None => true
          | Some _ => false
          end
      | _ => true
      end
  | _ => true
  end.

Definition entry_maps (e : Xml) : bool := title_maps e && summary_maps e.

(** A string that begins, or ends, with white space. *)
Definition starts_white (s : string) : bool :=
  match s with
  | String c _ => is_white c
  | EmptyString => false
  end.

Definition ends_white (s : string) : bool := starts_white (String.rev s).

End FeedShape.

Module DashboardSpec.
Import Dashboard.

(** The number [n] is an integer between [lo] and [hi]. *)
Definition within (lo hi : Z) (n : Number) : Prop :=
  match n with
  | Int z => lo <= z <= hi
  | NaN => False
  end.

(** The four settings are within the bounds of their controls. *)
Definition settled (s : Settings) : Prop :=
  within 5 180 (workMin s)
  /\ within 1 60 (breakMin s)
  /\ within 40 300 (proteinGoal s)
  /\ within 0 10000 (proteinToday s).

(** A press whose typed or added value, if it has one, is a number. *)
Definition numeric (e : Press) : Prop :=
  match e with
  | WorkTyped n | BreakTyped n | AddProtein n | GoalTyped n => n <> NaN
  | _ => True
  end.

(** What can happen to the quick-capture state: typing into the input
    ([setCapture(e.target.value)]), saving, deleting an item. *)
Inductive CaptureEvent :=
| Typed (value : string)
| Saved (uuid : string) (now : Z)
| Deleted (cid : string).

Definition happen (e : CaptureEvent) (st : CaptureState) : CaptureState :=
  match e with
  | Typed value => {| capture := value; captureItems := captureItems st |}
  | Saved uuid now => fst (submitCapture uuid now st)
  | Deleted cid => removeCapture cid st
  end.

(** Every weather code the two tables can tell apart, and [-1] for all the
    others. *)
Definition table_codes : list Z := (-1) :: (Z.of_nat <$> seq 0 100).

Definition table_code (code : Number) : Z :=
  match code with
  | Int z => if (0 <=? z) && (z <=? 99) then z else -1
  | NaN => -1
  end.

End DashboardSpec.

(* ===================================================================== *)
(** * Properties *)
(* ===================================================================== *)

Import Fetch Vercel.

(** ** The runtime *)

Example iso_epoch : toISOString 0 = Ok "1970-01-01T00:00:00.000Z"%string.
Proof. vm_compute. reflexivity. Qed.

Example iso_2023 :
  toISOString (1700000000 * 1000) = Ok "2023-11-14T22:13:20.000Z"%string.
Proof. vm_compute. reflexivity. Qed.

Example iso_leap_day :
  toISOString (951782400 * 1000 + 7) = Ok "2000-02-29T00:00:00.007Z"%string.
Proof. vm_compute. reflexivity. Qed.

Example iso_before_epoch : toISOString (-1) = Ok "1969-12-31T23:59:59.999Z"%string.
Proof. vm_compute. reflexivity. Qed.

Example iso_latest :
  toISOString 8640000000000000 = Ok "+275760-09-13T00:00:00.000Z"%string.
Proof. vm_compute. reflexivity. Qed.

Example iso_earliest :
  toISOString (-8640000000000000) = Ok "-271821-04-20T00:00:00.000Z"%string.
Proof. vm_compute. reflexivity. Qed.

Example iso_out_of_range :
  toISOString (8640000000000000 + 1) = Throw (RangeError "Invalid time value").
Proof. vm_compute. reflexivity. Qed.

Example trim_both_ends : trim "  Winter Storm Watch  " = "Winter Storm Watch"%string.
Proof. vm_compute. reflexivity. Qed.

Example decimal_samples :
  decimal 404 = "404"%string /\ decimal (-12) = "-12"%string /\ decimal 0 = "0"%string.
Proof. vm_compute. auto. Qed.

Example decimal_of_large_numbers :
  decimal (10 ^ 20) = "100000000000000000000"%string
  /\ decimal (10 ^ 21) = "1e+21"%string
  /\ decimal (2 ^ 53 + 1) = "9007199254740992"%string
  /\ decimal (2 ^ 60) = "1152921504606847000"%string
  /\ decimal (2 ^ 70) = "1.1805916207174113e+21"%string
  /\ decimal (- (15 * 10 ^ 20)) = "-1.5e+21"%string
  /\ decimal (2 ^ 1024) = "Infinity"%string.
Proof. vm_compute. repeat split. Qed.

Lemma mapM_Forall2 {A B} (f : A -> result B) xs ys :
  mapM f xs = Ok ys -> Forall2 (fun x y => f x = Ok y) xs ys.
Proof.
  revert ys. induction xs as [|x xs IH]; intros ys H; simpl in H.
  - injection H as <-. constructor.
  - destruct (f x) as [y|] eqn:Hx; simpl in H; [|discriminate].
    destruct (mapM f xs) as [ys'|] eqn:Hxs; simpl in H; [|discriminate].
    injection H as <-. constructor; auto.
Qed.

Lemma mapM_length {A B} (f : A -> result B) xs ys :
  mapM f xs = Ok ys -> length ys = length xs.
Proof.
  intros H. apply mapM_Forall2 in H. symmetry. eapply Forall2_length, H.
Qed.


Lemma Forall2_mapM_Ok {A B} (f : A -> result B) xs ys :
  Forall2 (fun x y => f x = Ok y) xs ys -> mapM f xs = Ok ys.
Proof.
  induction 1 as [|x y xs ys Hx _ IH]; simpl; [reflexivity|].
  rewrite Hx, IH. reflexivity.
Qed.

Lemma mapM_Throw {A B} (f : A -> result B) xs err :
  mapM f xs = Throw err -> exists x, In x xs /\ f x = Throw err.
Proof.
  induction xs as [|x xs IH]; simpl; [discriminate|].
  destruct (f x) as [y|err'] eqn:Hx; simpl.
  - destruct (mapM f xs) as [ys|err'] eqn:Hxs; simpl; [discriminate|].
    intros [= ->]. destruct (IH eq_refl) as (x' & Hin & Hx'). eauto.
  - intros [= ->]. eauto.
Qed.

(** ** The response of either handler, by path *)

Section Paths.
Import Spec.
Variable res : VercelResponse.

Lemma succeeded_cors cache b :
  headers (succeeded res cache b) !! "Access-Control-Allow-Origin"%string = Some "*"%string.
Proof. simpl. apply lookup_insert_eq. Qed.

Lemma succeeded_cache cache b :
  headers (succeeded res cache b) !! "Cache-Control"%string = Some cache.
Proof. simpl. rewrite lookup_insert_ne by discriminate. apply lookup_insert_eq. Qed.

Lemma failed_cors err :
  headers (failed res err) !! "Access-Control-Allow-Origin"%string = Some "*"%string.
Proof. simpl. apply lookup_insert_eq. Qed.

Lemma failed_cache err :
  headers (failed res err) !! "Cache-Control"%string = headers res !! "Cache-Control"%string.
Proof. simpl. apply lookup_insert_ne. discriminate. Qed.

Lemma failed_headers err :
  headers (failed res err) = <["Access-Control-Allow-Origin"%string := "*"%string]> (headers res).
Proof. reflexivity. Qed.

End Paths.

Lemma ttc_paths env req res :
  (exists alerts, TtcAlerts.attempt env = Ok alerts
     /\ TtcAlerts.handler env req res
        = Spec.succeeded res "s-maxage=60, stale-while-revalidate=300"
            (TtcAlerts.successBody alerts))
  \/ (exists err, TtcAlerts.attempt env = Throw err
     /\ TtcAlerts.handler env req res = Spec.failed res err).
Proof.
  unfold TtcAlerts.handler.
  destruct (TtcAlerts.attempt env) as [alerts|err]; [left|right]; eauto.
Qed.

Lemma envcan_paths env req res :
  (exists entries, EnvcanAlerts.attempt env req = Ok entries
     /\ EnvcanAlerts.handler env req res
        = Spec.succeeded res "s-maxage=120, stale-while-revalidate=600"
            (EnvcanAlerts.successBody (EnvcanAlerts.region req) entries))
  \/ (exists err, EnvcanAlerts.attempt env req = Throw err
     /\ EnvcanAlerts.handler env req res = Spec.failed res err).
Proof.
  unfold EnvcanAlerts.handler.
  destruct (EnvcanAlerts.attempt env req) as [entries|err]; [left|right]; eauto.
Qed.

(** ** api/ttc-alerts.ts *)

Section Transit.
Import TtcAlerts Spec.

Lemma mapFeed_drops (before after : list FeedEntity) (e : FeedEntity) :
  alert e = None ->
  mapFeed {| entity := Some (before ++ e :: after) |}
  = mapFeed {| entity := Some (before ++ after) |}.
Proof.
  intros He. unfold mapFeed. simpl.
  rewrite !List.filter_app. simpl. unfold hasAlert at 2. rewrite He. reflexivity.
Qed.

(** The mapping of a decoded feed can fail in one way only: a bound of an
    active period that is outside the range of [Date]. *)
Lemma instant_throws (t : option Seconds) (err : Thrown) :
  instant t = Throw err -> err = RangeError "Invalid time value".
Proof.
  unfold instant, toISOString. destruct t as [v|]; [|discriminate].
  destruct (truthy_seconds v); [|discriminate].
  destruct ((- max_time <=? Number_ v * 1000) && (Number_ v * 1000 <=? max_time)).
  - destruct (civil_from_days (Number_ v * 1000 / 86400000)) as [[y m] d]. discriminate.
  - simpl. congruence.
Qed.

Lemma mapFeed_throws (feed : FeedMessage) (err : Thrown) :
  mapFeed feed = Throw err -> err = RangeError "Invalid time value".
Proof.
  unfold mapFeed. intros H. apply mapM_Throw in H as (e & Hin & He).
  apply List.filter_In in Hin as [_ Hhas]. unfold hasAlert in Hhas.
  unfold mapEntity in He. destruct (alert e) as [a|]; [|discriminate].
  unfold mapAlert in He.
  destruct (mapM mapPeriod (default [] (activePeriod a))) as [ps|err'] eqn:Hps;
    [discriminate|].
  simpl in He. injection He as ->.
  apply mapM_Throw in Hps as (p & _ & Hp). unfold mapPeriod in Hp.
  destruct (instant (start p)) as [s|err'] eqn:Hs; simpl in Hp.
  - destruct (instant (end_ p)) as [e'|err'] eqn:He'; simpl in Hp; [discriminate|].
    injection Hp as ->. eapply instant_throws, He'.
  - injection Hp as ->. eapply instant_throws, Hs.
Qed.

Lemma mapEntity_kept (e : FeedEntity) (j : Json) :
  mapEntity e = Ok j -> exists a, alert e = Some a /\ mapAlert e a = Ok j.
Proof.
  unfold mapEntity. destruct (alert e) as [a|]; [eauto|discriminate].
Qed.

(** C2. A successful answer of the transit service has [count] equal to the
    length of [alerts], and [alerts] holds, in feed order, exactly one record
    per entity of the decoded feed that carries an alert. An entity without an
    alert is dropped and changes nothing else: the feed maps as it does
    without that entity. *)
Theorem ttc_count_is_alerts_length
  (env : Env) (req : VercelRequest) (res : VercelResponse)
  (resp : Response (list Byte.byte)) (buf : list Byte.byte) (feed : FeedMessage) :
  fetch env TTC_ALERTS_FEED USER_AGENT = Ok resp ->
  body resp = Ok buf ->
  decode env buf = Ok feed ->
  statusCode (handler env req res) = 200 ->
  (exists (alerts : list Json) (carrying : list FeedEntity),
      sent (handler env req res)
      = Some (JsonObj [("source", JsonStr "bustime.ttc.ca");
                       ("count", JsonNum (Z.of_nat (length alerts)));
                       ("alerts", JsonArr alerts)])
      /\ carrying = List.filter (fun e => bool_decide (is_Some (alert e)))
                      (default [] (entity feed))
      /\ length alerts = length carrying
      /\ Forall2 (fun e j => exists a, alert e = Some a /\ mapAlert e a = Ok j)
           carrying alerts)
  /\ (forall before e after,
        entity feed = Some (before ++ e :: after) ->
        alert e = None ->
        mapFeed feed = mapFeed {| entity := Some (before ++ after) |}).
Proof.
  intros Hfetch Hbody Hdecode Hstatus. split.
  - destruct (ttc_paths env req res) as [(alerts & Hatt & Hres)|(err & _ & Hres)];
      rewrite Hres in *; [|discriminate].
    unfold attempt in Hatt. rewrite Hfetch in Hatt. simpl in Hatt.
    destruct (ok resp); simpl in Hatt; [|discriminate].
    rewrite Hbody in Hatt. simpl in Hatt. rewrite Hdecode in Hatt. simpl in Hatt.
    unfold mapFeed in Hatt. apply mapM_Forall2 in Hatt.
    assert (Hsame : List.filter hasAlert (default [] (entity feed))
                    = List.filter (fun e => bool_decide (is_Some (alert e)))
                        (default [] (entity feed))).
    { apply List.filter_ext. intros e. unfold hasAlert.
      destruct (alert e); symmetry;
        [apply bool_decide_eq_true; eauto
        |apply bool_decide_eq_false; intros [? ?]; discriminate]. }
    rewrite Hsame in Hatt.
    exists alerts, (List.filter (fun e => bool_decide (is_Some (alert e)))
                      (default [] (entity feed))).
    split; [reflexivity|]. split; [reflexivity|]. split.
    + symmetry. eapply Forall2_length, Hatt.
    + eapply Forall2_impl; [exact Hatt|]. intros e j. apply mapEntity_kept.
  - intros before e after Hent He. destruct feed as [ent]. simpl in Hent. subst ent.
    apply mapFeed_drops, He.
Qed.

Lemma ttc_count_is_alerts_length_witness :
  let env := Samples.transit 200 "OK" Samples.twoEntities in
  exists (alerts : list Json) (carrying : list FeedEntity),
    sent (handler env (Samples.request []) fresh)
    = Some (JsonObj [("source", JsonStr "bustime.ttc.ca");
                     ("count", JsonNum (Z.of_nat (length alerts)));
                     ("alerts", JsonArr alerts)])
    /\ carrying = [Samples.withAlert]
    /\ length alerts = length carrying
    /\ Forall2 (fun e j => exists a, alert e = Some a /\ mapAlert e a = Ok j)
         carrying alerts.
Proof.
  exact (proj1 (ttc_count_is_alerts_length
                  (Samples.transit 200 "OK" Samples.twoEntities)
                  (Samples.request []) fresh
                  {| Fetch.status := 200; Fetch.statusText := "OK"; Fetch.body := Ok [] |}
                  [] Samples.twoEntities eq_refl eq_refl eq_refl eq_refl)).
Defined.

Lemma pickText_localized (tx : option TranslatedString) :
  string_or_null (pickText tx) = localized tx.
Proof.
  destruct tx as [[[[|first rest]|]]|]; simpl; try reflexivity.
  unfold pickText; simpl. destruct (text first) as [s|]; simpl; [|reflexivity].
  unfold truthy_string. destruct (String.eqb_spec s "") as [->|Hs]; simpl.
  - reflexivity.
  - unfold truthy_string. destruct (String.eqb_spec s ""); [contradiction|].
    simpl. destruct (decide (s = ""%string)); [contradiction|reflexivity].
Qed.

Lemma mapAlert_literal (e : FeedEntity) (a : Alert) (j : Json) :
  mapAlert e a = Ok j ->
  exists periods,
    mapM mapPeriod (default [] (activePeriod a)) = Ok periods
    /\ j = JsonObj [("id", JsonStr (id e));
                    ("header", localized (headerText a));
                    ("description", localized (descriptionText a));
                    ("url", localized (url a));
                    ("cause", number_nullish_null (cause a));
                    ("effect", number_nullish_null (effect a));
                    ("severity", number_nullish_null (severity a));
                    ("activePeriods", JsonArr periods);
                    ("informed", JsonArr (mapInformed <$> default [] (informedEntity a)))].
Proof.
  unfold mapAlert. intros H.
  destruct (mapM mapPeriod (default [] (activePeriod a))) as [periods|]; [|discriminate].
  simpl in H. injection H as <-. rewrite !pickText_localized. eauto.
Qed.

(** C3. In a mapped transit alert each of [header], [description] and [url]
    is the text of the first translation of its source structure, or null
    where there is no such text; the translations after the first never bear
    on the result. *)
Theorem ttc_first_translation_only (e : FeedEntity) (a : Alert) (j : Json) :
  mapAlert e a = Ok j ->
  (member "header" j = Some (localized (headerText a))
   /\ member "description" j = Some (localized (descriptionText a))
   /\ member "url" j = Some (localized (url a)))
  /\ (forall first rest,
        pickText (Some {| translation := Some (first :: rest) |})
        = pickText (Some {| translation := Some [first] |})
        /\ localized (Some {| translation := Some (first :: rest) |})
        = localized (Some {| translation := Some [first] |})).
Proof.
  intros H. apply mapAlert_literal in H as (periods & _ & ->).
  split; [repeat split|]. intros first rest. split; reflexivity.
Qed.

Lemma ttc_first_translation_only_witness :
  member "header" (JsonObj
     [("id", JsonStr "a1"); ("header", JsonStr "Line closure");
      ("description", JsonNull); ("url", JsonNull); ("cause", JsonNull);
      ("effect", JsonNum 1); ("severity", JsonNull);
      ("activePeriods",
       JsonArr [JsonObj [("start", JsonStr "2023-11-14T22:13:20.000Z");
                         ("end", JsonStr "1970-01-01T00:00:00.000Z")]]);
      ("informed",
       JsonArr [JsonObj [("routeId", JsonStr "501"); ("stopId", JsonNull);
                         ("tripId", JsonNull)]])])
  = Some (localized (headerText Samples.lineClosure)).
Proof.
  exact (proj1 (proj1 (ttc_first_translation_only Samples.withAlert Samples.lineClosure
                         _ eq_refl))).
Defined.

Example header_takes_first_translation :
  localized (Some {| translation := Some [ {| text := Some "Detour"%string |};
                                           {| text := Some "Deviation"%string |} ] |})
  = JsonStr "Detour"
  /\ localized (Some {| translation := Some [ {| text := Some ""%string |};
                                              {| text := Some "Deviation"%string |} ] |})
    = JsonNull
  /\ localized (Some {| translation := Some [] |}) = JsonNull
  /\ localized (Some {| translation := None |}) = JsonNull
  /\ localized None = JsonNull.
Proof. repeat split. Qed.

Lemma instant_timestamp (t : option Seconds) (j : Json) :
  instant t = Ok j -> timestamp_of t (Some j).
Proof.
  unfold instant, timestamp_of. destruct t as [[n|n]|]; simpl.
  - destruct n as [|n|n]; simpl; [intros [= <-]; reflexivity| |];
      (destruct (toISOString _) as [iso|]; simpl; [|discriminate]);
      intros [= <-]; eauto.
  - destruct (toISOString (n * 1000)) as [iso|]; simpl; [|discriminate].
    intros [= <-]. eauto.
  - intros [= <-]. reflexivity.
Qed.

Lemma mapPeriod_shape (p : TimeRange) (j : Json) :
  mapPeriod p = Ok j -> period_shape p j.
Proof.
  unfold mapPeriod. intros H.
  destruct (instant (start p)) as [s|] eqn:Hs; [|discriminate].
  destruct (instant (end_ p)) as [e|] eqn:He; [|discriminate].
  simpl in H. injection H as <-.
  split; [reflexivity|]. split; simpl; apply instant_timestamp; assumption.
Qed.

Example instant_by_bound :
  instant None = Ok JsonNull
  /\ instant (Some (Num 0)) = Ok JsonNull
  /\ instant (Some (Num 1700000000)) = Ok (JsonStr "2023-11-14T22:13:20.000Z")
  /\ instant (Some (Long 1700000000)) = Ok (JsonStr "2023-11-14T22:13:20.000Z")
  /\ instant (Some (Long 0)) = Ok (JsonStr "1970-01-01T00:00:00.000Z")
  /\ is_ok (instant (Some (Long 10000000000000))) = false.
Proof. repeat split. Qed.

(** C4. The claim fails at an active period that was sent with only a
    [start]: the decoder hands the end that was not sent as a [Long] zero, an
    object and so truthy, and the handler formats it as the epoch instead of
    the null the specification gives a bound that is absent. The start is
    the timestamp of its seconds, and the record as a whole is sent with
    status 200. *)
Theorem ttc_start_only_period_ends_at_epoch :
  mapPeriod (Samples.period (Some 1700000000) None)
  = Ok (JsonObj [("start", JsonStr "2023-11-14T22:13:20.000Z");
                 ("end", JsonStr "1970-01-01T00:00:00.000Z")])
  /\ bound_json (Some 1700000000) (JsonStr "2023-11-14T22:13:20.000Z")
  /\ ~ bound_json None (JsonStr "1970-01-01T00:00:00.000Z")
  /\ statusCode (handler (Samples.transit 200 "OK" Samples.twoEntities)
                   (Samples.request []) fresh) = 200
  /\ sent (handler (Samples.transit 200 "OK" Samples.twoEntities)
             (Samples.request []) fresh)
     = Some (JsonObj
         [("source", JsonStr "bustime.ttc.ca");
          ("count", JsonNum 1);
          ("alerts",
           JsonArr [JsonObj
             [("id", JsonStr "a1"); ("header", JsonStr "Line closure");
              ("description", JsonNull); ("url", JsonNull); ("cause", JsonNull);
              ("effect", JsonNum 1); ("severity", JsonNull);
              ("activePeriods",
               JsonArr [JsonObj [("start", JsonStr "2023-11-14T22:13:20.000Z");
                                 ("end", JsonStr "1970-01-01T00:00:00.000Z")]]);
              ("informed",
               JsonArr [JsonObj [("routeId", JsonStr "501"); ("stopId", JsonNull);
                                 ("tripId", JsonNull)]])]])]).
Proof.
  split; [reflexivity|]. split; [|split; [|split; reflexivity]].
  - simpl. eexists. split; reflexivity.
  - simpl. discriminate.
Qed.

(** X25. The JSON of a mapped transit alert has the same nine keys whatever
    the feed holds. A text that cannot be picked and an enum code that is
    absent are explicit nulls. Each active period has the keys [start] and
    [end]; a bound is null when it reads as [undefined], [null] or the number
    zero, and the timestamp of its seconds otherwise. A bound that is a
    [Long] object is therefore never null: a period whose bounds are both
    [Long] objects maps to two timestamps. *)
Theorem ttc_record_keys_are_fixed (e : FeedEntity) (a : Alert) (j : Json) :
  mapAlert e a = Ok j ->
  keys j = ["id"; "header"; "description"; "url"; "cause"; "effect"; "severity";
            "activePeriods"; "informed"]%string
  /\ (pickText (headerText a) = None -> member "header" j = Some JsonNull)
  /\ (pickText (descriptionText a) = None -> member "description" j = Some JsonNull)
  /\ (pickText (url a) = None -> member "url" j = Some JsonNull)
  /\ (cause a = None -> member "cause" j = Some JsonNull)
  /\ (effect a = None -> member "effect" j = Some JsonNull)
  /\ (severity a = None -> member "severity" j = Some JsonNull)
  /\ (exists periods,
        member "activePeriods" j = Some (JsonArr periods)
        /\ Forall2 period_shape (default [] (activePeriod a)) periods
        /\ (forall i n m,
              default [] (activePeriod a) !! i
              = Some {| start := Some (Long n); end_ := Some (Long m) |} ->
              exists from to,
                toISOString (n * 1000) = Ok from
                /\ toISOString (m * 1000) = Ok to
                /\ periods !! i
                   = Some (JsonObj [("start", JsonStr from); ("end", JsonStr to)]))).
Proof.
  intros H. unfold mapAlert in H.
  destruct (mapM mapPeriod (default [] (activePeriod a))) as [periods|] eqn:Hp;
    [|discriminate].
  simpl in H. injection H as <-. apply mapM_Forall2 in Hp.
  split; [reflexivity|].
  split; [intros ->; reflexivity|]. split; [intros ->; reflexivity|].
  split; [intros ->; reflexivity|]. split; [intros ->; reflexivity|].
  split; [intros ->; reflexivity|]. split; [intros ->; reflexivity|].
  exists periods. split; [reflexivity|]. split.
  - eapply Forall2_impl; [exact Hp|]. apply mapPeriod_shape.
  - intros i n m Hi.
    destruct (Forall2_lookup_l _ _ _ _ _ Hp Hi) as (pj & Hpj & Hmap).
    unfold mapPeriod, instant in Hmap. simpl in Hmap.
    destruct (toISOString (n * 1000)) as [from|]; [|discriminate].
    destruct (toISOString (m * 1000)) as [to|]; [|discriminate].
    simpl in Hmap. injection Hmap as <-. eauto.
Qed.

Lemma ttc_record_keys_are_fixed_witness :
  exists j,
    mapAlert Samples.withAlert Samples.lineClosure = Ok j
    /\ keys j = ["id"; "header"; "description"; "url"; "cause"; "effect"; "severity";
                 "activePeriods"; "informed"]%string
    /\ member "url" j = Some JsonNull
    /\ member "cause" j = Some JsonNull
    /\ member "activePeriods" j
       = Some (JsonArr [JsonObj [("start", JsonStr "2023-11-14T22:13:20.000Z");
                                 ("end", JsonStr "1970-01-01T00:00:00.000Z")]]).
Proof.
  eexists. split; [reflexivity|].
  pose proof (ttc_record_keys_are_fixed Samples.withAlert Samples.lineClosure _ eq_refl)
    as (Hkeys & _ & _ & Hurl & Hcause & _ & _ & _).
  split; [exact Hkeys|]. split; [exact (Hurl eq_refl)|].
  split; [exact (Hcause eq_refl)|reflexivity].
Defined.

End Transit.

(** ** api/envcan-alerts.ts *)

Section Weather.
Import EnvcanAlerts Spec.

(** Reads of a parsed value never throw, so the entry node of a parsed feed
    is always defined, and the values handed to the [map] callback are never
    [undefined] or [null]. *)
Lemma get_tree (x : Xml) (k : string) : exists v, get (Tree x) k = Ok v.
Proof.
  destruct x as [s|n|b|items|props]; simpl; eauto.
  destruct (assoc k props); eauto.
Qed.

Lemma get_opt_total (v : Val) (k : string) : exists v', get_opt v k = Ok v'.
Proof.
  destruct v as [| |b|x]; unfold get_opt; simpl; eauto. apply get_tree.
Qed.

Lemma entryNode_total (feed : Xml) : exists raw, entryNode (Tree feed) = Ok raw.
Proof.
  unfold entryNode. destruct (get_opt_total (Tree feed) "feed") as (f & ->). simpl.
  apply get_opt_total.
Qed.

Lemma toArray_not_nullish (raw : Val) : Forall (fun e => nullish e = false) (toArray raw).
Proof.
  destruct raw as [| |b|[s|n|c|items|props]]; simpl; repeat constructor.
  - destruct (negb (String.eqb s "")); repeat constructor.
  - destruct (negb (n =? 0)); repeat constructor.
  - destruct c; repeat constructor.
  - apply Forall_fmap, Forall_true. reflexivity.
Qed.

Lemma mapEntry_fields (e : Val) (w : WeatherEntry) :
  mapEntry e = Ok w ->
  entry_id e = Ok (id w)
  /\ entry_title e = Ok (title w)
  /\ entry_updatedISO e = Ok (updatedISO w)
  /\ entry_summary e = Ok (summary w)
  /\ entry_link e = Ok (link w).
Proof.
  unfold mapEntry. intros H.
  destruct (entry_id e); [|discriminate].
  destruct (entry_title e); [|discriminate].
  destruct (entry_updatedISO e); [|discriminate].
  destruct (entry_summary e); [|discriminate].
  destruct (entry_link e); [|discriminate].
  simpl in H. injection H as <-. simpl. repeat split.
Qed.

(** What [trim] returns is a string, so [title] and [summary] always are. *)
Lemma invoke_trim_is_string (v r : Val) :
  invoke v "trim" = Ok r -> is_string r = true.
Proof.
  unfold invoke. destruct v as [| |b|[s|n|c|items|props]]; simpl; try discriminate.
  - intros [= <-]. reflexivity.
  - destruct (assoc "trim" props); simpl; discriminate.
Qed.

Lemma title_and_summary_are_strings (e : Val) (w : WeatherEntry) :
  mapEntry e = Ok w -> is_string (title w) = true /\ is_string (summary w) = true.
Proof.
  intros Hw.
  apply mapEntry_fields in Hw as (_ & Ht & _ & Hs & _). split.
  - unfold entry_title in Ht.
    destruct (or_else (get e "title") (Ok (str ""))) as [t|]; [|discriminate].
    simpl in Ht. destruct (invoke t "toString") as [t'|]; [|discriminate].
    simpl in Ht. eapply invoke_trim_is_string, Ht.
  - unfold entry_summary, or_else in Hs.
    destruct (get e "summary") as [s|]; [|discriminate]. simpl in Hs.
    destruct (if is_string s then Ok s else get_opt s "#text") as [s'|]; [|discriminate].
    simpl in Hs. unfold invoke_opt in Hs.
    destruct (nullish s') eqn:Hn; simpl in Hs.
    + destruct s'; try discriminate; simpl in Hs; injection Hs as <-; reflexivity.
    + destruct (invoke s' "trim") as [r|] eqn:Hr; [|discriminate]. simpl in Hs.
      apply invoke_trim_is_string in Hr.
      destruct (truthy r); injection Hs as <-; [exact Hr|reflexivity].
Qed.

Lemma entry_id_chain (e provider permalink updated : Val) :
  get e "id" = Ok provider ->
  link_href e = Ok permalink ->
  get e "updated" = Ok updated ->
  entry_id e
  = Ok (if truthy provider then provider
        else if truthy permalink then permalink else updated).
Proof.
  intros Hid Hlink Hupd. unfold entry_id, or_else. rewrite Hid. simpl.
  destruct (truthy provider) eqn:Hp; simpl.
  - rewrite Hp. reflexivity.
  - rewrite Hlink. simpl. destruct (truthy permalink) eqn:Hl; simpl.
    + reflexivity.
    + exact Hupd.
Qed.

(** C5, as amended. The [id] of a mapped weather entry is the first truthy
    one of the provider id, the permalink [link.href] and the update
    timestamp, in that order, and the update timestamp as it reads when
    neither of the first two is truthy. For a text, truthy is non-empty; a
    value that is present but falsy (the number zero, [false]) is passed
    over like a missing one. *)
Theorem envcan_id_priority (e : Val) (w : WeatherEntry) (provider permalink updated : Val) :
  mapEntry e = Ok w ->
  get e "id" = Ok provider ->
  link_href e = Ok permalink ->
  get e "updated" = Ok updated ->
  (truthy provider = true -> id w = provider)
  /\ (truthy provider = false -> truthy permalink = true -> id w = permalink)
  /\ (truthy provider = false -> truthy permalink = false -> id w = updated)
  /\ (forall s, truthy (str s) = FeedShape.non_empty (str s))
  /\ (FeedShape.non_empty provider = false -> FeedShape.non_empty permalink = false ->
      id w = updated).
Proof.
  intros Hw Hid Hlink Hupd.
  apply mapEntry_fields in Hw as (Hw & _).
  rewrite (entry_id_chain e _ _ _ Hid Hlink Hupd) in Hw. injection Hw as Hw.
  split; [|split; [|split; [|split]]].
  - intros Hp. rewrite Hp in Hw. congruence.
  - intros Hp Hl. rewrite Hp, Hl in Hw. congruence.
  - intros Hp Hl. rewrite Hp, Hl in Hw. congruence.
  - reflexivity.
  - intros Hp Hl.
    assert (Hfalsy : forall v, FeedShape.non_empty v = false -> truthy v = false).
    { intros [| |b|[t|n|c|items|props]]; simpl; congruence. }
    rewrite (Hfalsy _ Hp), (Hfalsy _ Hl) in Hw. congruence.
Qed.

Lemma envcan_id_priority_witness :
  exists w,
    mapEntry (Tree Samples.noProviderId) = Ok w
    /\ id w = str "https://weather.gc.ca/warnings/r1".
Proof.
  eexists. split; [reflexivity|].
  exact (proj1 (proj2 (envcan_id_priority (Tree Samples.noProviderId) _
                         Undefined (str "https://weather.gc.ca/warnings/r1")
                         (str "2024-01-06T08:00:00Z")
                         eq_refl eq_refl eq_refl eq_refl)) eq_refl eq_refl).
Defined.

(** The claim as worded fails at an entry whose provider id is present and
    not empty, yet falsy: at [<id>0</id>] the id sent is the permalink. *)
Lemma envcan_id_priority_counterexample :
  get (Tree MoreSamples.zeroId) "id" = Ok (Tree (XNum 0))
  /\ link_href (Tree MoreSamples.zeroId) = Ok (str "https://weather.gc.ca/warnings/z0")
  /\ get (Tree MoreSamples.zeroId) "updated" = Ok (str "2024-01-08T07:00:00Z")
  /\ FeedShape.non_empty (Tree (XNum 0)) = true
  /\ FeedShape.first_non_empty (Tree (XNum 0)) (str "https://weather.gc.ca/warnings/z0")
       (str "2024-01-08T07:00:00Z") = Tree (XNum 0)
  /\ exists w,
       mapEntry (Tree MoreSamples.zeroId) = Ok w
       /\ id w = str "https://weather.gc.ca/warnings/z0"
       /\ id w <> FeedShape.first_non_empty (Tree (XNum 0))
                    (str "https://weather.gc.ca/warnings/z0")
                    (str "2024-01-08T07:00:00Z")
       /\ member "id" (entry_json w) = Some (JsonStr "https://weather.gc.ca/warnings/z0").
Proof.
  repeat (split; [reflexivity|]).
  eexists. split; [reflexivity|]. split; [reflexivity|]. split; [discriminate|reflexivity].
Qed.

Lemma literal_without_id (title updatedISO summary link : option Json) :
  member "id" (literal [("id", None); ("title", title); ("updatedISO", updatedISO);
                        ("summary", summary); ("link", link)]) = None.
Proof. destruct title, updatedISO, summary, link; reflexivity. Qed.

(** C9. When the provider id, the permalink and the update timestamp of an
    entry are all missing, the [id] of the mapped entry is [undefined] and the
    serialised entry has no [id] key; there is a feed for which the service
    answers 200 with such an entry. *)
Theorem envcan_id_may_be_missing :
  (forall (e : Val) (w : WeatherEntry),
      mapEntry e = Ok w ->
      get e "id" = Ok Undefined ->
      link_href e = Ok Undefined ->
      get e "updated" = Ok Undefined ->
      id w = Undefined /\ member "id" (entry_json w) = None)
  /\ (exists (env : Env) (req : VercelRequest) (entry : Json),
        statusCode (handler env req fresh) = 200
        /\ sent (handler env req fresh) ≫= member "entries" = Some (JsonArr [entry])
        /\ keys entry = ["title"; "updatedISO"; "summary"; "link"]%string
        /\ member "id" entry = None).
Proof.
  split.
  - intros e w Hw Hid Hlink Hupd.
    apply mapEntry_fields in Hw as (Hw & _).
    rewrite (entry_id_chain e _ _ _ Hid Hlink Hupd) in Hw. simpl in Hw.
    injection Hw as Hnone. split; [congruence|].
    unfold entry_json. rewrite <- Hnone. apply literal_without_id.
  - exists Samples.oneStormWatch, (Samples.request []). eexists.
    repeat split.
Qed.

Lemma envcan_id_may_be_missing_witness :
  exists w,
    mapEntry (Tree Samples.stormWatch) = Ok w
    /\ id w = Undefined
    /\ member "id" (entry_json w) = None.
Proof.
  eexists. split; [reflexivity|].
  exact (proj1 envcan_id_may_be_missing (Tree Samples.stormWatch) _
           eq_refl eq_refl eq_refl eq_refl).
Defined.

Lemma attempt_maps (env : Env) (req : VercelRequest)
  (r : Response string) (xml : string) (feed : Xml) (raw : Val) :
  fetch env (url (region req)) USER_AGENT = Ok r ->
  ok r = true ->
  body r = Ok xml ->
  parse env xml = Ok feed ->
  entryNode (Tree feed) = Ok raw ->
  attempt env req = mapM mapEntry (toArray raw).
Proof.
  intros Hfetch Hok Hbody Hparse Hraw. unfold attempt, afterFetch.
  rewrite Hfetch. simpl. rewrite Hok. simpl. rewrite Hbody. simpl.
  rewrite Hparse. simpl. rewrite Hraw. reflexivity.
Qed.

Lemma handler_succeeds (env : Env) (req : VercelRequest) (res : VercelResponse)
  (entries : list WeatherEntry) :
  attempt env req = Ok entries ->
  handler env req res
  = succeeded res "s-maxage=120, stale-while-revalidate=600"
      (successBody (region req) entries).
Proof. unfold handler. intros ->. reflexivity. Qed.

(** C1. For a feed that was fetched and parsed, a 200 answer
    of the weather service has [entries] as an array with one mapped element
    per element of the entry node read as a sequence. When the entry node is
    absent the answer is 200 and the array is empty; when the node is a single
    non-array object, or a sequence, and the mapping of its entries completes,
    the answer is 200 and the array holds exactly that one mapped element,
    respectively one mapped element per raw entry, in order. *)
Theorem envcan_entries_is_array
  (env : Env) (req : VercelRequest) (res : VercelResponse)
  (r : Response string) (xml : string) (feed : Xml) (raw : Val) :
  fetch env (url (region req)) USER_AGENT = Ok r ->
  ok r = true ->
  body r = Ok xml ->
  parse env xml = Ok feed ->
  entryNode (Tree feed) = Ok raw ->
  (statusCode (handler env req res) = 200 ->
   exists ws,
     sent (handler env req res) ≫= member "entries" = Some (JsonArr (entry_json <$> ws))
     /\ Forall2 (fun e w => mapEntry e = Ok w) (toArray raw) ws)
  /\ (raw = Undefined ->
      statusCode (handler env req res) = 200
      /\ sent (handler env req res) ≫= member "entries" = Some (JsonArr []))
  /\ (forall props w,
        raw = Tree (XObj props) ->
        mapEntry raw = Ok w ->
        statusCode (handler env req res) = 200
        /\ sent (handler env req res) ≫= member "entries" = Some (JsonArr [entry_json w]))
  /\ (forall items ws,
        raw = Tree (XArr items) ->
        Forall2 (fun x w => mapEntry (Tree x) = Ok w) items ws ->
        statusCode (handler env req res) = 200
        /\ sent (handler env req res) ≫= member "entries"
           = Some (JsonArr (entry_json <$> ws))
        /\ length ws = length items).
Proof.
  intros Hfetch Hok Hbody Hparse Hraw.
  pose proof (attempt_maps env req r xml feed raw Hfetch Hok Hbody Hparse Hraw) as Hatt.
  split; [|split; [|split]].
  - intros Hstatus.
    destruct (envcan_paths env req res) as [(ws & Hws & Hres)|(err & _ & Hres)];
      rewrite Hres in *; [|discriminate].
    exists ws. split; [reflexivity|]. apply mapM_Forall2. congruence.
  - intros ->. rewrite (handler_succeeds env req res []); [|exact Hatt].
    split; reflexivity.
  - intros props w -> Hw. rewrite (handler_succeeds env req res [w]).
    + split; reflexivity.
    + rewrite Hatt. simpl. rewrite Hw. reflexivity.
  - intros items ws -> Hws. rewrite (handler_succeeds env req res ws).
    + split; [reflexivity|]. split; [reflexivity|].
      symmetry. eapply Forall2_length, Hws.
    + rewrite Hatt. simpl. apply Forall2_mapM_Ok, Forall2_fmap_l. exact Hws.
Qed.

Lemma envcan_entries_is_array_witness :
  statusCode (handler Samples.oneStormWatch (Samples.request []) fresh) = 200
  /\ sent (handler Samples.oneStormWatch (Samples.request []) fresh) ≫= member "entries"
     = Some (JsonArr [JsonObj [("title", JsonStr "Winter Storm Watch");
                               ("updatedISO", JsonNull);
                               ("summary", JsonStr "");
                               ("link", JsonNull)]]).
Proof.
  exact (proj1 (proj2 (proj2
    (envcan_entries_is_array Samples.oneStormWatch (Samples.request []) fresh
       {| Fetch.status := 200; Fetch.statusText := "OK"; Fetch.body := Ok ""%string |}
       ""%string (Samples.feedOf [("entry", Samples.stormWatch)]) (Tree Samples.stormWatch)
       eq_refl eq_refl eq_refl eq_refl eq_refl)))
    _ _ eq_refl eq_refl).
Defined.

(** C1 does not hold without the proviso that the mapping completes. On a
    feed whose single entry has a summary element with an attribute and a
    numeric text, the entry node is a single non-array object, the [trim] of
    the mapping is applied to a number, and the answer is the 500 of the error
    path, without [entries]. *)
Lemma envcan_entries_is_array_counterexample :
  parse Samples.oneNumericSummary ""
  = Ok (Samples.feedOf [("entry", Samples.numericSummary)])
  /\ entryNode (Tree (Samples.feedOf [("entry", Samples.numericSummary)]))
     = Ok (Tree Samples.numericSummary)
  /\ is_ok (mapEntry (Tree Samples.numericSummary)) = false
  /\ statusCode (handler Samples.oneNumericSummary (Samples.request []) fresh) = 500
  /\ keys <$> sent (handler Samples.oneNumericSummary (Samples.request []) fresh)
     = Some ["error"%string]
  /\ sent (handler Samples.oneNumericSummary (Samples.request []) fresh)
       ≫= member "entries" = None.
Proof. repeat split. Qed.

Example entries_of_a_sequence :
  sent (handler Samples.threeEntries (Samples.request [("region", QStr "bc12")]) fresh)
  = Some (JsonObj
      [("region", JsonStr "bc12");
       ("entries",
        JsonArr
          [JsonObj [("id", JsonStr "tag:weather.gc.ca,2024:on61_w2");
                    ("title", JsonStr "Fog advisory");
                    ("updatedISO", JsonStr "2024-01-05T10:00:00Z");
                    ("summary", JsonStr "Dense fog.");
                    ("link", JsonStr "https://weather.gc.ca/warnings/")];
           JsonObj [("title", JsonStr "Winter Storm Watch");
                    ("updatedISO", JsonNull);
                    ("summary", JsonStr "");
                    ("link", JsonNull)];
           JsonObj [("id", JsonStr "https://weather.gc.ca/warnings/r1");
                    ("title", JsonStr "Rainfall warning");
                    ("updatedISO", JsonStr "2024-01-06T08:00:00Z");
                    ("summary", JsonStr "");
                    ("link", JsonStr "https://weather.gc.ca/warnings/r1")]])]).
Proof. reflexivity. Qed.

Example entries_of_no_entry :
  sent (handler Samples.noEntries (Samples.request []) fresh)
  = Some (JsonObj [("region", JsonStr "on61"); ("entries", JsonArr [])]).
Proof. reflexivity. Qed.

Example toArray_shapes :
  toArray Undefined = []
  /\ toArray (Tree (XObj [])) = [Tree (XObj [])]
  /\ toArray (Tree (XArr [XObj []; XStr "x"])) = [Tree (XObj []); str "x"]
  /\ toArray (str "text") = [str "text"]
  /\ toArray (str "") = [].
Proof. repeat split. Qed.

(** C7. The success answer of the weather service echoes the resolved
    region. When the [region] parameter is absent or empty the resolved region
    is the default, [on61], the upstream URL is built from it, and a success
    answer has [region] equal to it. *)
Theorem envcan_default_region (env : Env) (req : VercelRequest) (res : VercelResponse) :
  (statusCode (handler env req res) = 200 ->
   sent (handler env req res) ≫= member "region" = Some (query_json (region req)))
  /\ (query req !! "region"%string = None \/ query req !! "region"%string = Some (QStr "") ->
      region req = QStr REGION_DEFAULT
      /\ REGION_DEFAULT = "on61"%string
      /\ url (region req) = "https://weather.gc.ca/rss/battleboard/on61_e.xml"%string
      /\ attempt env req
         = afterFetch env
             (fetch env "https://weather.gc.ca/rss/battleboard/on61_e.xml" USER_AGENT)
      /\ (statusCode (handler env req res) = 200 ->
          sent (handler env req res) ≫= member "region" = Some (JsonStr "on61"))).
Proof.
  assert (Hecho : statusCode (handler env req res) = 200 ->
                  sent (handler env req res) ≫= member "region"
                  = Some (query_json (region req))).
  { intros Hstatus.
    destruct (envcan_paths env req res) as [(ws & _ & Hres)|(err & _ & Hres)];
      rewrite Hres in *; [reflexivity|discriminate]. }
  split; [exact Hecho|]. intros Hq.
  assert (Hregion : region req = QStr REGION_DEFAULT).
  { unfold region. destruct Hq as [-> | ->]; reflexivity. }
  split; [exact Hregion|]. split; [reflexivity|].
  split; [rewrite Hregion; reflexivity|].
  split; [unfold attempt; rewrite Hregion; reflexivity|].
  intros Hstatus. rewrite (Hecho Hstatus), Hregion. reflexivity.
Qed.

Lemma envcan_default_region_witness :
  url (region (Samples.request [("region", QStr "")]))
  = "https://weather.gc.ca/rss/battleboard/on61_e.xml"%string
  /\ sent (handler Samples.noEntries (Samples.request [("region", QStr "")]) fresh)
       ≫= member "region" = Some (JsonStr "on61").
Proof.
  pose proof (proj2 (envcan_default_region Samples.noEntries
                       (Samples.request [("region", QStr "")]) fresh)
                (or_intror eq_refl)) as (_ & _ & Hurl & _ & Hecho).
  split; [exact Hurl|exact (Hecho eq_refl)].
Defined.

Example region_is_echoed :
  region (Samples.request []) = QStr "on61"
  /\ region (Samples.request [("region", QStr "bc12")]) = QStr "bc12"
  /\ url (QStr "bc12") = "https://weather.gc.ca/rss/battleboard/bc12_e.xml"%string.
Proof. repeat split. Qed.

End Weather.

(** ** Both services *)

Section Both.
Import Spec.

(** C6. When the upstream answers with a status outside 200-299, either
    handler answers 500 with the body [{error: <message>}]; the message is
    ["TTC alerts fetch failed: <status> <statusText>"] for the transit service
    and ["EnvCan fetch failed: <status> <statusText>"] for the weather service,
    and so contains the upstream status code. *)
Theorem upstream_failure_is_500 :
  (forall (env : TtcAlerts.Env) (req : VercelRequest) (res : VercelResponse)
          (resp : Response (list Byte.byte)),
      TtcAlerts.fetch env TtcAlerts.TTC_ALERTS_FEED TtcAlerts.USER_AGENT = Ok resp ->
      ok resp = false ->
      exists message,
        statusCode (TtcAlerts.handler env req res) = 500
        /\ sent (TtcAlerts.handler env req res) = Some (JsonObj [("error", JsonStr message)])
        /\ message = ("TTC alerts fetch failed: " +:+ decimal (Fetch.status resp)
                      +:+ " " +:+ statusText resp)%string
        /\ contains (decimal (Fetch.status resp)) message)
  /\ (forall (env : EnvcanAlerts.Env) (req : VercelRequest) (res : VercelResponse)
             (resp : Response string),
        EnvcanAlerts.fetch env (EnvcanAlerts.url (EnvcanAlerts.region req))
          EnvcanAlerts.USER_AGENT = Ok resp ->
        ok resp = false ->
        exists message,
          statusCode (EnvcanAlerts.handler env req res) = 500
          /\ sent (EnvcanAlerts.handler env req res)
             = Some (JsonObj [("error", JsonStr message)])
          /\ message = ("EnvCan fetch failed: " +:+ decimal (Fetch.status resp)
                        +:+ " " +:+ statusText resp)%string
          /\ contains (decimal (Fetch.status resp)) message).
Proof.
  split.
  - intros env req res resp Hfetch Hok. eexists.
    unfold TtcAlerts.handler, TtcAlerts.attempt. rewrite Hfetch. simpl. rewrite Hok. simpl.
    repeat split. eexists _, _. reflexivity.
  - intros env req res resp Hfetch Hok. eexists.
    unfold EnvcanAlerts.handler, EnvcanAlerts.attempt, EnvcanAlerts.afterFetch.
    rewrite Hfetch. simpl. rewrite Hok. simpl.
    repeat split. eexists _, _. reflexivity.
Qed.

Lemma upstream_failure_is_500_witness :
  (exists message,
      statusCode (TtcAlerts.handler (Samples.transit 404 "Not Found" Samples.twoEntities)
                    (Samples.request []) fresh) = 500
      /\ sent (TtcAlerts.handler (Samples.transit 404 "Not Found" Samples.twoEntities)
                 (Samples.request []) fresh)
         = Some (JsonObj [("error", JsonStr message)])
      /\ message = "TTC alerts fetch failed: 404 Not Found"%string
      /\ contains "404" message)
  /\ (exists message,
        statusCode (EnvcanAlerts.handler Samples.notFound (Samples.request []) fresh) = 500
        /\ sent (EnvcanAlerts.handler Samples.notFound (Samples.request []) fresh)
           = Some (JsonObj [("error", JsonStr message)])
        /\ message = "EnvCan fetch failed: 404 Not Found"%string
        /\ contains "404" message).
Proof.
  split.
  - exact (proj1 upstream_failure_is_500
             (Samples.transit 404 "Not Found" Samples.twoEntities) (Samples.request []) fresh
             {| Fetch.status := 404; Fetch.statusText := "Not Found"; Fetch.body := Ok [] |}
             eq_refl eq_refl).
  - exact (proj2 upstream_failure_is_500
             Samples.notFound (Samples.request []) fresh
             {| Fetch.status := 404; Fetch.statusText := "Not Found";
                Fetch.body := Ok ""%string |}
             eq_refl eq_refl).
Defined.

(** C8. Every answer of either handler, on the success path and on the
    failure path, carries [Access-Control-Allow-Origin: *]. *)
Theorem cors_on_every_response :
  (forall (env : TtcAlerts.Env) (req : VercelRequest) (res : VercelResponse),
      headers (TtcAlerts.handler env req res) !! "Access-Control-Allow-Origin"%string
      = Some "*"%string
      /\ (statusCode (TtcAlerts.handler env req res) = 200
          \/ statusCode (TtcAlerts.handler env req res) = 500))
  /\ (forall (env : EnvcanAlerts.Env) (req : VercelRequest) (res : VercelResponse),
        headers (EnvcanAlerts.handler env req res) !! "Access-Control-Allow-Origin"%string
        = Some "*"%string
        /\ (statusCode (EnvcanAlerts.handler env req res) = 200
            \/ statusCode (EnvcanAlerts.handler env req res) = 500)).
Proof.
  split; intros env req res.
  - destruct (ttc_paths env req res) as [(x & _ & ->)|(err & _ & ->)].
    + split; [apply succeeded_cors|left; reflexivity].
    + split; [apply failed_cors|right; reflexivity].
  - destruct (envcan_paths env req res) as [(x & _ & ->)|(err & _ & ->)].
    + split; [apply succeeded_cors|left; reflexivity].
    + split; [apply failed_cors|right; reflexivity].
Qed.

(** C10. On the failure path either handler sets the cross-origin header and
    nothing else: an answer that starts without a [Cache-Control] header
    leaves as a 500 without one. The caching hint is set on the success path
    only. *)
Theorem no_cache_hint_on_failure :
  (forall (env : TtcAlerts.Env) (req : VercelRequest) (res : VercelResponse),
      headers res !! "Cache-Control"%string = None ->
      (statusCode (TtcAlerts.handler env req res) = 500 ->
       headers (TtcAlerts.handler env req res) !! "Cache-Control"%string = None
       /\ headers (TtcAlerts.handler env req res)
          = <["Access-Control-Allow-Origin"%string := "*"%string]> (headers res))
      /\ (statusCode (TtcAlerts.handler env req res) = 200 ->
          headers (TtcAlerts.handler env req res) !! "Cache-Control"%string
          = Some "s-maxage=60, stale-while-revalidate=300"%string))
  /\ (forall (env : EnvcanAlerts.Env) (req : VercelRequest) (res : VercelResponse),
        headers res !! "Cache-Control"%string = None ->
        (statusCode (EnvcanAlerts.handler env req res) = 500 ->
         headers (EnvcanAlerts.handler env req res) !! "Cache-Control"%string = None
         /\ headers (EnvcanAlerts.handler env req res)
            = <["Access-Control-Allow-Origin"%string := "*"%string]> (headers res))
        /\ (statusCode (EnvcanAlerts.handler env req res) = 200 ->
            headers (EnvcanAlerts.handler env req res) !! "Cache-Control"%string
            = Some "s-maxage=120, stale-while-revalidate=600"%string)).
Proof.
  split; intros env req res Hnone.
  - destruct (ttc_paths env req res) as [(x & _ & ->)|(err & _ & ->)].
    + split; [discriminate|]. intros _. apply succeeded_cache.
    + split; [|discriminate]. intros _. rewrite failed_cache. split; [exact Hnone|reflexivity].
  - destruct (envcan_paths env req res) as [(x & _ & ->)|(err & _ & ->)].
    + split; [discriminate|]. intros _. apply succeeded_cache.
    + split; [|discriminate]. intros _. rewrite failed_cache. split; [exact Hnone|reflexivity].
Qed.

Lemma no_cache_hint_on_failure_witness :
  headers (TtcAlerts.handler (Samples.transit 404 "Not Found" Samples.twoEntities)
             (Samples.request []) fresh) !! "Cache-Control"%string = None
  /\ headers (EnvcanAlerts.handler Samples.oneNumericSummary (Samples.request []) fresh)
       !! "Cache-Control"%string = None.
Proof.
  split.
  - exact (proj1 (proj1 (proj1 no_cache_hint_on_failure
             (Samples.transit 404 "Not Found" Samples.twoEntities) (Samples.request []) fresh
             eq_refl) eq_refl)).
  - exact (proj1 (proj1 (proj2 no_cache_hint_on_failure
             Samples.oneNumericSummary (Samples.request []) fresh eq_refl) eq_refl)).
Defined.

End Both.

(** ** Further properties of the two handlers *)

Section Envelope.
Import Spec.

(** X1. Whatever the [try] block throws is answered with a 500 whose body is
    [{error: <message>}], the message of the thrown value or ["failed"] when it
    has none: a rejected [fetch], a body that cannot be read, a payload the
    decoder or the parser rejects. *)
Theorem thrown_is_answered_500 :
  (forall (env : TtcAlerts.Env) (req : VercelRequest) (res : VercelResponse)
          (err : Thrown),
      (TtcAlerts.fetch env TtcAlerts.TTC_ALERTS_FEED TtcAlerts.USER_AGENT = Throw err
       \/ exists resp,
            TtcAlerts.fetch env TtcAlerts.TTC_ALERTS_FEED TtcAlerts.USER_AGENT = Ok resp
            /\ ok resp = true
            /\ (body resp = Throw err
                \/ exists buf, body resp = Ok buf /\ TtcAlerts.decode env buf = Throw err)) ->
      statusCode (TtcAlerts.handler env req res) = 500
      /\ sent (TtcAlerts.handler env req res)
         = Some (JsonObj [("error", JsonStr (message_or_failed err))])
      /\ (err = NoMessage ->
          sent (TtcAlerts.handler env req res)
          = Some (JsonObj [("error", JsonStr "failed")])))
  /\ (forall (env : EnvcanAlerts.Env) (req : VercelRequest) (res : VercelResponse)
             (err : Thrown),
        (EnvcanAlerts.fetch env (EnvcanAlerts.url (EnvcanAlerts.region req))
           EnvcanAlerts.USER_AGENT = Throw err
         \/ exists resp,
              EnvcanAlerts.fetch env (EnvcanAlerts.url (EnvcanAlerts.region req))
                EnvcanAlerts.USER_AGENT = Ok resp
              /\ ok resp = true
              /\ (body resp = Throw err
                  \/ exists xml, body resp = Ok xml
                                 /\ EnvcanAlerts.parse env xml = Throw err)) ->
        statusCode (EnvcanAlerts.handler env req res) = 500
        /\ sent (EnvcanAlerts.handler env req res)
           = Some (JsonObj [("error", JsonStr (message_or_failed err))])
        /\ (err = NoMessage ->
            sent (EnvcanAlerts.handler env req res)
            = Some (JsonObj [("error", JsonStr "failed")]))).
Proof.
  split.
  - intros env req res err H.
    assert (Hatt : TtcAlerts.attempt env = Throw err).
    { unfold TtcAlerts.attempt.
      destruct H as [-> | (resp & -> & Hok & [Hb | (buf & Hb & Hd)])]; simpl;
        [reflexivity| |]; rewrite Hok; simpl; rewrite Hb; simpl;
        [reflexivity|rewrite Hd; reflexivity]. }
    unfold TtcAlerts.handler. rewrite Hatt.
    split; [reflexivity|]. split; [reflexivity|]. intros ->. reflexivity.
  - intros env req res err H.
    assert (Hatt : EnvcanAlerts.attempt env req = Throw err).
    { unfold EnvcanAlerts.attempt, EnvcanAlerts.afterFetch.
      destruct H as [-> | (resp & -> & Hok & [Hb | (xml & Hb & Hd)])]; simpl;
        [reflexivity| |]; rewrite Hok; simpl; rewrite Hb; simpl;
        [reflexivity|rewrite Hd; reflexivity]. }
    unfold EnvcanAlerts.handler. rewrite Hatt.
    split; [reflexivity|]. split; [reflexivity|]. intros ->. reflexivity.
Qed.

Lemma thrown_is_answered_500_witness :
  sent (TtcAlerts.handler MoreSamples.malformed (Samples.request []) fresh)
  = Some (JsonObj [("error", JsonStr "index out of range: 3 + 10 > 5")])
  /\ sent (TtcAlerts.handler MoreSamples.unreachable (Samples.request []) fresh)
     = Some (JsonObj [("error", JsonStr "fetch failed")])
  /\ sent (EnvcanAlerts.handler MoreSamples.brokenXml (Samples.request []) fresh)
     = Some (JsonObj [("error", JsonStr "failed")]).
Proof.
  split; [|split].
  - apply (proj1 thrown_is_answered_500 MoreSamples.malformed (Samples.request []) fresh
             (Error "index out of range: 3 + 10 > 5")).
    right. eexists. split; [reflexivity|]. split; [reflexivity|].
    right. eexists. split; reflexivity.
  - apply (proj1 thrown_is_answered_500 MoreSamples.unreachable (Samples.request []) fresh
             (TypeError "fetch failed")).
    left. reflexivity.
  - apply (proj2 thrown_is_answered_500 MoreSamples.brokenXml (Samples.request []) fresh
             NoMessage); [|reflexivity].
    right. eexists. split; [reflexivity|]. split; [reflexivity|].
    right. eexists. split; reflexivity.
Defined.

(** X2. A handler touches two headers at most: every other header of the
    response it is handed is still there, unchanged, when the response is
    sent, on the success path and on the failure path. *)
Theorem other_headers_are_kept :
  (forall (env : TtcAlerts.Env) (req : VercelRequest) (res : VercelResponse)
          (name : string),
      name <> "Access-Control-Allow-Origin"%string ->
      name <> "Cache-Control"%string ->
      headers (TtcAlerts.handler env req res) !! name = headers res !! name)
  /\ (forall (env : EnvcanAlerts.Env) (req : VercelRequest) (res : VercelResponse)
             (name : string),
        name <> "Access-Control-Allow-Origin"%string ->
        name <> "Cache-Control"%string ->
        headers (EnvcanAlerts.handler env req res) !! name = headers res !! name).
Proof.
  split; intros env req res name Hcors Hcache.
  - destruct (ttc_paths env req res) as [(x & _ & ->)|(err & _ & ->)]; simpl.
    + rewrite !lookup_insert_ne by congruence. reflexivity.
    + rewrite lookup_insert_ne by congruence. reflexivity.
  - destruct (envcan_paths env req res) as [(x & _ & ->)|(err & _ & ->)]; simpl.
    + rewrite !lookup_insert_ne by congruence. reflexivity.
    + rewrite lookup_insert_ne by congruence. reflexivity.
Qed.

Lemma other_headers_are_kept_witness :
  headers (TtcAlerts.handler (Samples.transit 200 "OK" Samples.twoEntities)
             (Samples.request []) MoreSamples.traced) !! "X-Request-Id"%string
  = Some "r-42"%string
  /\ headers (EnvcanAlerts.handler Samples.notFound (Samples.request [])
               MoreSamples.traced) !! "X-Request-Id"%string
     = Some "r-42"%string.
Proof.
  split.
  - apply (proj1 other_headers_are_kept (Samples.transit 200 "OK" Samples.twoEntities)
             (Samples.request []) MoreSamples.traced "X-Request-Id"%string);
      discriminate.
  - apply (proj2 other_headers_are_kept Samples.notFound
             (Samples.request []) MoreSamples.traced "X-Request-Id"%string);
      discriminate.
Defined.

(** X3. Every answer is one of two envelopes, whatever status and body the
    response held before: 200 with an object whose keys are exactly
    [source, count, alerts] (transit, [source] being the upstream host) or
    [region, entries] (weather), or 500 with an object whose only key is
    [error]. *)
Theorem answer_is_one_of_two_envelopes :
  (forall (env : TtcAlerts.Env) (req : VercelRequest) (res : VercelResponse),
      exists b,
        sent (TtcAlerts.handler env req res) = Some b
        /\ ((statusCode (TtcAlerts.handler env req res) = 200
             /\ keys b = ["source"; "count"; "alerts"]%string
             /\ member "source" b = Some (JsonStr "bustime.ttc.ca")
             /\ exists alerts, member "alerts" b = Some (JsonArr alerts))
            \/ (statusCode (TtcAlerts.handler env req res) = 500
                /\ keys b = ["error"%string]
                /\ exists message, member "error" b = Some (JsonStr message))))
  /\ (forall (env : EnvcanAlerts.Env) (req : VercelRequest) (res : VercelResponse),
        exists b,
          sent (EnvcanAlerts.handler env req res) = Some b
          /\ ((statusCode (EnvcanAlerts.handler env req res) = 200
               /\ keys b = ["region"; "entries"]%string
               /\ exists entries, member "entries" b = Some (JsonArr entries))
              \/ (statusCode (EnvcanAlerts.handler env req res) = 500
                  /\ keys b = ["error"%string]
                  /\ exists message, member "error" b = Some (JsonStr message)))).
Proof.
  split; intros env req res.
  - destruct (ttc_paths env req res) as [(x & _ & ->)|(err & _ & ->)];
      eexists; (split; [reflexivity|]); [left|right]; repeat split; eexists; reflexivity.
  - destruct (envcan_paths env req res) as [(x & _ & ->)|(err & _ & ->)];
      eexists; (split; [reflexivity|]); [left|right]; repeat split; eexists; reflexivity.
Qed.

End Envelope.

Section TransitMore.
Import TtcAlerts Spec.

Lemma mapM_is_ok {A B} (f : A -> result B) (xs : list A) :
  is_ok (mapM f xs) = forallb (fun x => is_ok (f x)) xs.
Proof.
  induction xs as [|x xs IH]; simpl; [reflexivity|].
  destruct (f x); simpl; [|reflexivity].
  rewrite <- IH. destruct (mapM f xs); reflexivity.
Qed.

Lemma instant_is_ok (t : option Seconds) : is_ok (instant t) = in_date_range t.
Proof.
  unfold instant, in_date_range, toISOString.
  destruct t as [[n|n]|]; [| |reflexivity]; simpl.
  - unfold truthy_number. destruct (n =? 0); simpl; [reflexivity|].
    destruct ((- max_time <=? n * 1000) && (n * 1000 <=? max_time)); [|reflexivity].
    destruct (civil_from_days (n * 1000 / 86400000)) as [[y m] d]. reflexivity.
  - destruct ((- max_time <=? n * 1000) && (n * 1000 <=? max_time)); [|reflexivity].
    destruct (civil_from_days (n * 1000 / 86400000)) as [[y m] d]. reflexivity.
Qed.

Lemma mapPeriod_is_ok (p : TimeRange) : is_ok (mapPeriod p) = period_in_range p.
Proof.
  unfold mapPeriod, period_in_range. rewrite <- !instant_is_ok.
  destruct (instant (start p)); simpl; [|reflexivity].
  destruct (instant (end_ p)); reflexivity.
Qed.

Lemma mapAlert_is_ok (e : FeedEntity) (a : Alert) :
  is_ok (mapAlert e a) = forallb period_in_range (default [] (activePeriod a)).
Proof.
  unfold mapAlert.
  transitivity (is_ok (mapM mapPeriod (default [] (activePeriod a)))).
  { destruct (mapM mapPeriod _); reflexivity. }
  rewrite mapM_is_ok.
  induction (default [] (activePeriod a)) as [|p ps IH]; simpl; [reflexivity|].
  rewrite mapPeriod_is_ok, IH. reflexivity.
Qed.

Lemma mapFeed_is_ok (feed : FeedMessage) : is_ok (mapFeed feed) = feed_in_range feed.
Proof.
  unfold mapFeed, feed_in_range. rewrite mapM_is_ok.
  induction (default [] (entity feed)) as [|e es IH]; [reflexivity|].
  cbn [List.filter forallb]. destruct (alert e) as [a|] eqn:Ha.
  - replace (hasAlert e) with true by (unfold hasAlert; rewrite Ha; reflexivity).
    cbn [forallb]. rewrite IH. f_equal.
    unfold mapEntity. rewrite Ha. apply mapAlert_is_ok.
  - replace (hasAlert e) with false by (unfold hasAlert; rewrite Ha; reflexivity).
    exact IH.
Qed.

(** X4. A feed that was fetched and decoded is answered with 200 exactly when
    every bound of every active period of its alerts is absent, zero, or
    within the range of [Date]; one bound out of range anywhere turns the
    whole answer into a 500 that carries no alert at all. *)
Theorem ttc_answers_200_iff_in_range
  (env : Env) (req : VercelRequest) (res : VercelResponse)
  (resp : Response (list Byte.byte)) (buf : list Byte.byte) (feed : FeedMessage) :
  fetch env TTC_ALERTS_FEED USER_AGENT = Ok resp ->
  ok resp = true ->
  body resp = Ok buf ->
  decode env buf = Ok feed ->
  statusCode (handler env req res) = (if feed_in_range feed then 200 else 500)
  /\ (feed_in_range feed = false ->
      sent (handler env req res) ≫= member "alerts" = None).
Proof.
  intros Hfetch Hok Hbody Hdecode.
  assert (Hatt : attempt env = mapFeed feed).
  { unfold attempt. rewrite Hfetch. simpl. rewrite Hok. simpl. rewrite Hbody. simpl.
    rewrite Hdecode. reflexivity. }
  rewrite <- mapFeed_is_ok. unfold handler. rewrite Hatt.
  destruct (mapFeed feed); simpl; split; try reflexivity; discriminate.
Qed.

Lemma ttc_answers_200_iff_in_range_witness :
  statusCode (handler (Samples.transit 200 "OK" MoreSamples.outOfRange)
                (Samples.request []) fresh) = 500
  /\ sent (handler (Samples.transit 200 "OK" MoreSamples.outOfRange)
             (Samples.request []) fresh) ≫= member "alerts" = None.
Proof.
  pose proof (ttc_answers_200_iff_in_range
                (Samples.transit 200 "OK" MoreSamples.outOfRange) (Samples.request []) fresh
                {| Fetch.status := 200; Fetch.statusText := "OK"; Fetch.body := Ok [] |}
                [] MoreSamples.outOfRange eq_refl eq_refl eq_refl eq_refl) as [Hs Hb].
  split; [exact Hs|exact (Hb eq_refl)].
Defined.

(** X5. The fields read with [??] keep values that are falsy: a cause, effect
    or severity code is passed through as a number, zero included. [informed]
    has one element per informed entity, in order, each with exactly the keys
    [routeId], [stopId], [tripId]; a key holds the source string, the empty
    string included, or null, and [tripId] is read from the trip descriptor
    and is null when there is none. *)
Theorem ttc_nullish_fields_keep_falsy_values (e : FeedEntity) (a : Alert) (j : Json) :
  mapAlert e a = Ok j ->
  (forall n, cause a = Some n -> member "cause" j = Some (JsonNum n))
  /\ (forall n, effect a = Some n -> member "effect" j = Some (JsonNum n))
  /\ (forall n, severity a = Some n -> member "severity" j = Some (JsonNum n))
  /\ exists informed,
       member "informed" j = Some (JsonArr informed)
       /\ Forall2 (fun ie ij =>
                     keys ij = ["routeId"; "stopId"; "tripId"]%string
                     /\ member "routeId" ij = Some (nullable (routeId ie))
                     /\ member "stopId" ij = Some (nullable (stopId ie))
                     /\ member "tripId" ij = Some (nullable (trip ie ≫= tripId)))
            (default [] (informedEntity a)) informed.
Proof.
  intros H. apply mapAlert_literal in H as (periods & _ & ->).
  split; [intros n ->; reflexivity|]. split; [intros n ->; reflexivity|].
  split; [intros n ->; reflexivity|].
  eexists. split; [reflexivity|].
  apply Forall2_fmap_r, Forall_Forall2_diag, Forall_forall.
  intros ie _. repeat split.
Qed.

Lemma ttc_nullish_fields_keep_falsy_values_witness :
  exists j,
    mapAlert Samples.withAlert MoreSamples.detour = Ok j
    /\ member "cause" j = Some (JsonNum 0)
    /\ member "header" j = Some JsonNull
    /\ member "informed" j
       = Some (JsonArr [JsonObj [("routeId", JsonStr ""); ("stopId", JsonNull);
                                 ("tripId", JsonStr "t9")];
                        JsonObj [("routeId", JsonStr "504"); ("stopId", JsonStr "s1");
                                 ("tripId", JsonNull)]]).
Proof.
  eexists. split; [reflexivity|].
  split; [|split; reflexivity].
  exact (proj1 (ttc_nullish_fields_keep_falsy_values Samples.withAlert MoreSamples.detour
                  _ eq_refl) 0 eq_refl).
Defined.

(** X6. The [id]s of the alerts of an answer are the ids of the entities
    that carry an alert, verbatim and in feed order: nothing is reordered and
    entities that share an id are not merged. *)
Theorem ttc_ids_follow_feed (feed : FeedMessage) (alerts : list Json) :
  mapFeed feed = Ok alerts ->
  member "id" <$> alerts
  = (fun e => Some (JsonStr (id e))) <$> List.filter hasAlert (default [] (entity feed)).
Proof.
  unfold mapFeed. intros H. apply mapM_Forall2 in H.
  induction H as [|e j es js He _ IH]; [reflexivity|].
  rewrite !fmap_cons, IH. f_equal.
  apply mapEntity_kept in He as (a & _ & Ha).
  apply mapAlert_literal in Ha as (periods & _ & ->). reflexivity.
Qed.

Lemma ttc_ids_follow_feed_witness :
  exists alerts,
    mapFeed MoreSamples.sameIdTwice = Ok alerts
    /\ member "id" <$> alerts = [Some (JsonStr "a1"); Some (JsonStr "a1")].
Proof.
  eexists. split; [reflexivity|].
  exact (ttc_ids_follow_feed MoreSamples.sameIdTwice _ eq_refl).
Defined.

Lemma str_app_assoc (a b c : string) : (a +:+ b) +:+ c = a +:+ (b +:+ c).
Proof.
  induction a as [|x a IH]; [reflexivity|].
  change (String x ((a +:+ b) +:+ c) = String x (a +:+ (b +:+ c))). f_equal. exact IH.
Qed.

Lemma str_app_length (a b : string) :
  String.length (a +:+ b) = (String.length a + String.length b)%nat.
Proof.
  induction a as [|x a IH]; [reflexivity|].
  change (S (String.length (a +:+ b)) = S (String.length a + String.length b)).
  f_equal. exact IH.
Qed.

Lemma digits_length (w : nat) (n : Z) (acc : string) :
  String.length (digits w n acc) = (w + String.length acc)%nat.
Proof.
  revert n acc. induction w as [|w IH]; intros n acc; cbn [digits]; [reflexivity|].
  rewrite IH. cbn. lia.
Qed.

Lemma pad_length (w : nat) (n : Z) : String.length (pad w n) = w.
Proof. unfold pad. rewrite digits_length. cbn. lia. Qed.

Lemma year_text_length (y : Z) :
  String.length (year_text y) = 4%nat \/ String.length (year_text y) = 7%nat.
Proof.
  unfold year_text. destruct ((0 <=? y) && (y <=? 9999)).
  - left. apply pad_length.
  - right. rewrite str_app_length, pad_length. destruct (y <? 0); reflexivity.
Qed.

(** X7. Epoch seconds are turned into milliseconds before they are
    formatted, so every timestamp of an active period denotes a whole second:
    it ends in [.000Z]. It is 24 characters long, or 27 when the year needs
    the expanded form. *)
Theorem ttc_instants_are_whole_seconds (t : option Seconds) (iso : string) :
  instant t = Ok (JsonStr iso) ->
  (exists front, iso = front +:+ ".000Z")
  /\ (String.length iso = 24%nat \/ String.length iso = 27%nat).
Proof.
  unfold instant, toISOString. destruct t as [v|]; [|discriminate].
  destruct (truthy_seconds v); [|discriminate].
  generalize (Number_ v). intros n.
  destruct ((- max_time <=? n * 1000) && (n * 1000 <=? max_time)); [|discriminate].
  destruct (civil_from_days (n * 1000 / 86400000)) as [[y m] d].
  cbn [bind]. intros [= <-].
  assert (Hms : (n * 1000) mod 86400000 mod 1000 = 0).
  { change 86400000 with (86400 * 1000).
    rewrite Z.mul_mod_distr_r by lia. apply Z.mod_mul. lia. }
  rewrite Hms. split.
  - exists (year_text y +:+ "-" +:+ pad 2 m +:+ "-" +:+ pad 2 d +:+ "T"
            +:+ pad 2 ((n * 1000) mod 86400000 / 3600000) +:+ ":"
            +:+ pad 2 ((n * 1000) mod 86400000 / 60000 mod 60) +:+ ":"
            +:+ pad 2 ((n * 1000) mod 86400000 / 1000 mod 60)).
    rewrite !str_app_assoc. reflexivity.
  - rewrite !str_app_length, !pad_length.
    destruct (year_text_length y) as [-> | ->]; [left|right]; reflexivity.
Qed.

Lemma ttc_instants_are_whole_seconds_witness :
  (exists front, "2023-11-14T22:13:20.000Z"%string = front +:+ ".000Z")
  /\ (String.length "2023-11-14T22:13:20.000Z" = 24%nat
      \/ String.length "2023-11-14T22:13:20.000Z" = 27%nat).
Proof.
  exact (ttc_instants_are_whole_seconds (Some (Long 1700000000)) _ eq_refl).
Defined.

End TransitMore.

Section WeatherMore.
Import EnvcanAlerts FeedShape.

(** Induction on a parsed value, with the hypothesis for every element of a
    sequence and every child of an object. *)
Lemma Xml_induction (P : Xml -> Prop) :
  (forall s, P (XStr s)) ->
  (forall n, P (XNum n)) ->
  (forall b, P (XBool b)) ->
  (forall items, Forall P items -> P (XArr items)) ->
  (forall props, Forall (fun kv => P (snd kv)) props -> P (XObj props)) ->
  forall x, P x.
Proof.
  intros Hs Hn Hb Harr Hobj. fix IH 1. intros [s|n|b|items|props].
  - apply Hs.
  - apply Hn.
  - apply Hb.
  - apply Harr. induction items as [|y items IHitems]; constructor;
      [apply IH|exact IHitems].
  - apply Hobj. induction props as [|[k y] props IHprops]; constructor;
      [apply IH|exact IHprops].
Qed.

Lemma xml_to_string_is_ok (x : Xml) : is_ok (xml_to_string x) = stringable x.
Proof.
  induction x as [s|n|b|items IH|props _] using Xml_induction; try reflexivity.
  - cbn [xml_to_string stringable].
    match goal with
    | |- is_ok (bind ?m _) = _ => transitivity (is_ok m); [destruct m; reflexivity|]
    end.
    induction IH as [|y items Hy _ IHitems]; [reflexivity|].
    cbn [forallb]. rewrite <- Hy, <- IHitems.
    destruct (xml_to_string y); [|reflexivity]. cbn [bind is_ok andb].
    match goal with
    | |- is_ok (bind ?m _) = _ => destruct m; reflexivity
    end.
  - cbn [xml_to_string stringable]. destruct (assoc "toString" props); reflexivity.
Qed.

Lemma or_else_total (a b : result Val) :
  (exists x, a = Ok x) -> (exists y, b = Ok y) -> exists z, or_else a b = Ok z.
Proof.
  intros (x & ->) (y & ->). unfold or_else. simpl. destruct (truthy x); eauto.
Qed.

Lemma link_href_total (x : Xml) : exists v, link_href (Tree x) = Ok v.
Proof.
  unfold link_href. destruct (get_tree x "link") as (l & ->). simpl.
  apply get_opt_total.
Qed.

Lemma other_fields_total (x : Xml) :
  exists i u l,
    entry_id (Tree x) = Ok i
    /\ entry_updatedISO (Tree x) = Ok u
    /\ entry_link (Tree x) = Ok l.
Proof.
  destruct (or_else_total (or_else (get (Tree x) "id") (link_href (Tree x)))
              (get (Tree x) "updated")) as (i & Hi).
  { apply or_else_total; [apply get_tree|apply link_href_total]. }
  { apply get_tree. }
  destruct (or_else_total (or_else (get (Tree x) "updated") (get (Tree x) "published"))
              (Ok Null)) as (u & Hu).
  { apply or_else_total; apply get_tree. }
  { eauto. }
  destruct (or_else_total (link_href (Tree x)) (Ok Null)) as (l & Hl).
  { apply link_href_total. }
  { eauto. }
  exists i, u, l. repeat split; assumption.
Qed.

Lemma invoke_trim_str (s : string) : invoke (str s) "trim" = Ok (str (trim s)).
Proof. reflexivity. Qed.

Lemma invoke_toString_arr (items : list Xml) :
  invoke (Tree (XArr items)) "toString"
  = (do s <- xml_to_string (XArr items); Ok (str s)).
Proof. reflexivity. Qed.

Lemma invoke_toString_obj (props : list (string * Xml)) :
  invoke (Tree (XObj props)) "toString"
  = match assoc "toString" props with
    | Some _ => Throw (TypeError "toString is not a function")
    | None => Ok (str "[object Object]")
    end.
Proof. unfold invoke. cbn [get]. destruct (assoc "toString" props); reflexivity. Qed.

Lemma invoke_toString_tree (t : Xml) :
  is_ok (invoke (Tree t) "toString") = stringable t
  /\ forall r, invoke (Tree t) "toString" = Ok r -> exists s, r = str s.
Proof.
  destruct t as [s|n|b|items|props].
  - split; [reflexivity|]. intros r [= <-]. eauto.
  - split; [reflexivity|]. intros r [= <-]. eexists. reflexivity.
  - split; [reflexivity|]. intros r [= <-]. eexists. reflexivity.
  - rewrite <- xml_to_string_is_ok, invoke_toString_arr.
    destruct (xml_to_string (XArr items)) as [s|]; split; try reflexivity.
    + intros r [= <-]. eauto.
    + discriminate.
  - rewrite invoke_toString_obj. cbn [stringable].
    destruct (assoc "toString" props) as [x|]; split; try reflexivity.
    + discriminate.
    + intros r [= <-]. eexists. reflexivity.
Qed.

Lemma entry_title_is_ok (e : Xml) : is_ok (entry_title (Tree e)) = title_maps e.
Proof.
  assert (Hstr : forall s, is_ok (do t' <- invoke (str s) "toString"; invoke t' "trim") = true).
  { reflexivity. }
  assert (Htree : forall t, is_ok (do t' <- invoke (Tree t) "toString"; invoke t' "trim")
                            = stringable t).
  { intros t. destruct (invoke_toString_tree t) as [Hok Hshape]. rewrite <- Hok.
    destruct (invoke (Tree t) "toString") as [r|]; [|reflexivity].
    destruct (Hshape r eq_refl) as (s & ->). reflexivity. }
  unfold entry_title, title_maps, or_else.
  destruct e as [s|n|b|items|props]; try reflexivity.
  cbn [get]. destruct (assoc "title" props) as [t|]; [|reflexivity].
  cbn [bind]. destruct (truthy (Tree t)); [apply Htree|reflexivity].
Qed.

Lemma entry_summary_is_ok (e : Xml) : is_ok (entry_summary (Tree e)) = summary_maps e.
Proof.
  unfold entry_summary, summary_maps, or_else.
  destruct e as [s|n|b|items|props]; try reflexivity.
  cbn [get]. destruct (assoc "summary" props) as [[s|n|b|items|sprops]|]; try reflexivity.
  - cbn. destruct (negb (String.eqb (trim s) "")); reflexivity.
  - cbn [bind is_string get_opt nullish get].
    destruct (assoc "#text" sprops) as [[s|n|b|items|tprops]|]; try reflexivity.
    + cbn. destruct (negb (String.eqb (trim s) "")); reflexivity.
    + unfold invoke_opt, invoke. cbn [nullish get bind].
      destruct (assoc "trim" tprops); reflexivity.
Qed.

Lemma mapEntry_is_ok (e : Xml) : is_ok (mapEntry (Tree e)) = entry_maps e.
Proof.
  unfold mapEntry, entry_maps.
  rewrite <- entry_title_is_ok, <- entry_summary_is_ok.
  destruct (other_fields_total e) as (i & u & l & -> & -> & ->). cbn [bind].
  destruct (entry_title (Tree e)); [|reflexivity]. cbn [bind].
  destruct (entry_summary (Tree e)); reflexivity.
Qed.

Lemma entryNode_shape (feed : Xml) (raw : Val) :
  entryNode (Tree feed) = Ok raw -> raw = Undefined \/ exists x, raw = Tree x.
Proof.
  assert (Hget : forall (x : Xml) (k : string) (r : Val),
             assoc k [("link", String_link); ("toString", String_toString);
                      ("trim", String_trim)] = None ->
             get (Tree x) k = Ok r -> r = Undefined \/ exists y, r = Tree y).
  { intros x k r Hk. destruct x as [s|n|b|items|props]; cbn [get].
    - unfold inherited. cbn [prototype]. rewrite Hk. intros [= <-]. auto.
    - unfold inherited. cbn [prototype].
      cbn in Hk. destruct (String.eqb k "link"); [discriminate|].
      cbn. destruct (String.eqb k "toString"); [discriminate|]. intros [= <-]. auto.
    - unfold inherited. cbn [prototype].
      cbn in Hk. destruct (String.eqb k "link"); [discriminate|].
      cbn. destruct (String.eqb k "toString"); [discriminate|]. intros [= <-]. auto.
    - unfold inherited. cbn [prototype].
      cbn in Hk. destruct (String.eqb k "link"); [discriminate|].
      cbn. destruct (String.eqb k "toString"); [discriminate|]. intros [= <-]. auto.
    - destruct (assoc k props) as [y|]; [intros [= <-]; eauto|].
      unfold inherited. cbn [prototype].
      cbn in Hk. destruct (String.eqb k "link"); [discriminate|].
      cbn. destruct (String.eqb k "toString"); [discriminate|]. intros [= <-]. auto. }
  unfold entryNode, get_opt. cbn [nullish bind].
  destruct (get (Tree feed) "feed") as [f|] eqn:Hf; [|discriminate].
  destruct (Hget feed "feed"%string f eq_refl Hf) as [-> | (y & ->)]; cbn [bind nullish].
  - intros [= <-]. auto.
  - apply Hget. reflexivity.
Qed.

Lemma toArray_trees (feed : Xml) (raw : Val) :
  entryNode (Tree feed) = Ok raw -> exists xs, toArray raw = Tree <$> xs.
Proof.
  intros H. apply entryNode_shape in H as [-> | (x & ->)].
  - exists []. reflexivity.
  - destruct x as [s|n|b|items|props]; cbn [toArray].
    + destruct (truthy (Tree (XStr s))); [exists [XStr s]|exists []]; reflexivity.
    + destruct (truthy (Tree (XNum n))); [exists [XNum n]|exists []]; reflexivity.
    + destruct (truthy (Tree (XBool b))); [exists [XBool b]|exists []]; reflexivity.
    + exists items. reflexivity.
    + exists [XObj props]. reflexivity.
Qed.

(** X8. A weather feed that was fetched and parsed is answered with 200
    exactly when every raw entry maps: its title, if any, has a conversion to
    string, and its summary is not an object whose text is something else than
    a string. One entry that does not map turns the whole answer into a 500
    without [entries]; nothing is answered in part. *)
Theorem envcan_answers_200_iff_entries_map
  (env : Env) (req : VercelRequest) (res : VercelResponse)
  (r : Response string) (xml : string) (feed : Xml) (raw : Val) :
  fetch env (url (region req)) USER_AGENT = Ok r ->
  ok r = true ->
  body r = Ok xml ->
  parse env xml = Ok feed ->
  entryNode (Tree feed) = Ok raw ->
  exists rawEntries,
    toArray raw = Tree <$> rawEntries
    /\ statusCode (handler env req res)
       = (if forallb entry_maps rawEntries then 200 else 500)
    /\ (forallb entry_maps rawEntries = false ->
        sent (handler env req res) ≫= member "entries" = None).
Proof.
  intros Hfetch Hok Hbody Hparse Hraw.
  destruct (toArray_trees feed raw Hraw) as (xs & Hxs).
  exists xs. split; [exact Hxs|].
  pose proof (attempt_maps env req r xml feed raw Hfetch Hok Hbody Hparse Hraw) as Hatt.
  assert (His : is_ok (attempt env req) = forallb entry_maps xs).
  { rewrite Hatt, Hxs, mapM_is_ok. clear.
    induction xs as [|x xs IH]; [reflexivity|].
    cbn [fmap list_fmap forallb]. rewrite mapEntry_is_ok. f_equal. exact IH. }
  rewrite <- His. unfold handler.
  destruct (attempt env req); simpl; split; try reflexivity; discriminate.
Qed.

Lemma envcan_answers_200_iff_entries_map_witness :
  exists rawEntries,
    [Tree Samples.advisory; Tree Samples.numericSummary; Tree Samples.stormWatch]
    = Tree <$> rawEntries
    /\ statusCode (handler MoreSamples.oneBadOfThree (Samples.request []) fresh)
       = (if forallb entry_maps rawEntries then 200 else 500)
    /\ (forallb entry_maps rawEntries = false ->
        sent (handler MoreSamples.oneBadOfThree (Samples.request []) fresh)
          ≫= member "entries" = None).
Proof.
  exact (envcan_answers_200_iff_entries_map MoreSamples.oneBadOfThree (Samples.request [])
           fresh
           {| Fetch.status := 200; Fetch.statusText := "OK"; Fetch.body := Ok ""%string |}
           ""%string _ _ eq_refl eq_refl eq_refl eq_refl eq_refl).
Defined.

Lemma truthy_trimmed (s : string) :
  (if truthy (str (trim s)) then Ok (str (trim s)) else Ok (str "")) = Ok (str (trim s)).
Proof.
  unfold truthy, str. destruct (String.eqb_spec (trim s) "") as [->|]; reflexivity.
Qed.

(** X9. The summary of an entry, by the shape of its summary element: the
    trimmed text of a plain element, or of the [#text] of an element with
    attributes; the empty string when the element is absent, has attributes
    but no text, is repeated, or reads as a number or a boolean; and no entry
    at all, the mapping throws, when the [#text] of an element with attributes
    is not a string. *)
Theorem envcan_summary_by_shape (props : list (string * Xml)) :
  (forall s,
      assoc "summary" props = Some (XStr s) ->
      entry_summary (Tree (XObj props)) = Ok (str (trim s)))
  /\ (forall sprops s,
        assoc "summary" props = Some (XObj sprops) ->
        assoc "#text" sprops = Some (XStr s) ->
        entry_summary (Tree (XObj props)) = Ok (str (trim s)))
  /\ (forall sprops,
        assoc "summary" props = Some (XObj sprops) ->
        assoc "#text" sprops = None ->
        entry_summary (Tree (XObj props)) = Ok (str ""))
  /\ (forall sprops v,
        assoc "summary" props = Some (XObj sprops) ->
        assoc "#text" sprops = Some v ->
        is_string (Tree v) = false ->
        is_ok (entry_summary (Tree (XObj props))) = false)
  /\ (forall v,
        assoc "summary" props = Some v ->
        (exists n, v = XNum n) \/ (exists b, v = XBool b) \/ (exists items, v = XArr items) ->
        entry_summary (Tree (XObj props)) = Ok (str ""))
  /\ (assoc "summary" props = None ->
      entry_summary (Tree (XObj props)) = Ok (str "")).
Proof.
  unfold entry_summary, or_else. cbn [get].
  split; [|split; [|split; [|split; [|split]]]].
  - intros s ->. cbn. apply truthy_trimmed.
  - intros sprops s -> Ht. cbn [bind is_string get_opt nullish get]. rewrite Ht.
    cbn. apply truthy_trimmed.
  - intros sprops -> Ht. cbn [bind is_string get_opt nullish get]. rewrite Ht. reflexivity.
  - intros sprops v -> Ht Hv. cbn [bind is_string get_opt nullish get]. rewrite Ht.
    destruct v as [s|n|b|items|tprops]; try discriminate; try reflexivity.
    unfold invoke_opt, invoke. cbn [bind nullish get].
    destruct (assoc "trim" tprops); reflexivity.
  - intros v -> [(n & ->)|[(b & ->)|(items & ->)]]; reflexivity.
  - intros ->. reflexivity.
Qed.

Lemma envcan_summary_by_shape_witness :
  entry_summary (Tree MoreSamples.typedTitle) = Ok (str "Squalls.")
  /\ is_ok (entry_summary (Tree Samples.numericSummary)) = false.
Proof.
  split.
  - exact (proj1 (proj2 (envcan_summary_by_shape (MoreSamples.propsOf MoreSamples.typedTitle)))
             _ " Squalls. "%string eq_refl eq_refl).
  - exact (proj1 (proj2 (proj2 (proj2
             (envcan_summary_by_shape (MoreSamples.propsOf Samples.numericSummary)))))
             _ (XNum 2024) eq_refl eq_refl eq_refl).
Defined.

(** X10. The title of an entry, by the shape of its title element: the
    trimmed text of a plain element; the empty string when the element is
    absent or empty, or reads as the number zero; when the text reads as
    another integer, the text [Number.prototype.toString] gives that number,
    written out in digits below 1e21 and in exponent notation from there on
    ([1e+21]). A title element that carries attributes is an object, and is
    rendered as the text [[object Object]]: unlike the summary, its [#text] is
    not read. *)
Theorem envcan_title_by_shape (props : list (string * Xml)) :
  (forall s,
      assoc "title" props = Some (XStr s) ->
      entry_title (Tree (XObj props)) = Ok (str (trim s)))
  /\ (assoc "title" props = None ->
      entry_title (Tree (XObj props)) = Ok (str ""))
  /\ (forall n,
        assoc "title" props = Some (XNum n) ->
        entry_title (Tree (XObj props))
        = Ok (str (if decide (n = 0) then "" else trim (decimal n))))
  /\ (forall tprops,
        assoc "title" props = Some (XObj tprops) ->
        assoc "toString" tprops = None ->
        entry_title (Tree (XObj props)) = Ok (str "[object Object]")).
Proof.
  unfold entry_title, or_else. cbn [get].
  split; [|split; [|split]].
  - intros s ->. cbn [bind truthy str].
    destruct (String.eqb_spec s "") as [->|]; reflexivity.
  - intros ->. reflexivity.
  - intros n ->. cbn [bind truthy str].
    destruct (Z.eqb_spec n 0) as [->|Hn]; [reflexivity|].
    destruct (decide (n = 0)); [contradiction|]. reflexivity.
  - intros tprops -> Ht. cbn [bind truthy].
    rewrite invoke_toString_obj, Ht. reflexivity.
Qed.

Lemma envcan_title_by_shape_witness :
  entry_title (Tree MoreSamples.typedTitle) = Ok (str "[object Object]")
  /\ entry_title (Tree Samples.stormWatch) = Ok (str "Winter Storm Watch")
  /\ entry_title (Tree MoreSamples.numericTitle) = Ok (str "1e+21").
Proof.
  split; [|split].
  - exact (proj2 (proj2 (proj2
             (envcan_title_by_shape (MoreSamples.propsOf MoreSamples.typedTitle))))
             _ eq_refl eq_refl).
  - exact (proj1 (envcan_title_by_shape (MoreSamples.propsOf Samples.stormWatch))
             " Winter Storm Watch "%string eq_refl).
  - pose proof (proj1 (proj2 (proj2
                  (envcan_title_by_shape (MoreSamples.propsOf MoreSamples.numericTitle))))
                  (10 ^ 21) eq_refl) as H.
    vm_compute in H. vm_compute. exact H.
Defined.

(** A read of a name that no prototype holds gives [undefined] or a parsed
    value, never a function. *)
Lemma get_data (v : Val) (k : string) (r : Val) :
  k <> "link"%string -> k <> "toString"%string -> k <> "trim"%string ->
  get v k = Ok r -> r = Undefined \/ exists y, r = Tree y.
Proof.
  intros Hlink HtoString Htrim.
  assert (Hin : inherited v k = Undefined).
  { unfold inherited.
    destruct v as [| |b|[s|n|b|items|props]]; cbn [prototype assoc]; try reflexivity;
      repeat match goal with
             | |- context [String.eqb k ?c] =>
                 destruct (String.eqb_spec k c); [contradiction|]
             end; reflexivity. }
  destruct v as [| |b|[s|n|b|items|props]]; cbn [get]; try discriminate;
    try (rewrite Hin; intros [= <-]; auto).
  destruct (assoc k props) as [y|]; [intros [= <-]; eauto|].
  rewrite Hin. intros [= <-]. auto.
Qed.

Lemma or_null_shape (a : result Val) (r : Val) :
  (forall x, a = Ok x -> x = Undefined \/ exists y, x = Tree y) ->
  or_else a (Ok Null) = Ok r ->
  r = Null \/ exists y, r = Tree y /\ truthy r = true.
Proof.
  intros Ha. unfold or_else. destruct a as [x|]; [|discriminate]. cbn [bind].
  destruct (truthy x) eqn:Hx; intros [= <-]; [|auto].
  destruct (Ha x eq_refl) as [-> | (y & ->)]; [discriminate|eauto].
Qed.

Lemma link_href_data (e r : Val) :
  link_href e = Ok r -> r = Undefined \/ exists y, r = Tree y.
Proof.
  unfold link_href. destruct (get e "link") as [l|]; [|discriminate]. cbn [bind].
  unfold get_opt. destruct (nullish l); [intros [= <-]; auto|].
  apply get_data; discriminate.
Qed.

Lemma entry_updatedISO_shape (e r : Val) :
  entry_updatedISO e = Ok r -> r = Null \/ exists y, r = Tree y /\ truthy r = true.
Proof.
  unfold entry_updatedISO. apply or_null_shape. intros x.
  unfold or_else. destruct (get e "updated") as [u|] eqn:Hu; [|discriminate]. cbn [bind].
  destruct (truthy u).
  - intros [= <-]. revert Hu. apply get_data; discriminate.
  - apply get_data; discriminate.
Qed.

Lemma entry_link_shape (e r : Val) :
  entry_link e = Ok r -> r = Null \/ exists y, r = Tree y /\ truthy r = true.
Proof.
  unfold entry_link. apply or_null_shape. intros x. apply link_href_data.
Qed.

Lemma literal_with_texts (i : option Json) (t s : string) (u l : Json) :
  literal [("id", i); ("title", Some (JsonStr t)); ("updatedISO", Some u);
           ("summary", Some (JsonStr s)); ("link", Some l)]
  = JsonObj (match i with Some j => [("id", j)] | None => [] end
             ++ [("title", JsonStr t); ("updatedISO", u); ("summary", JsonStr s);
                 ("link", l)]).
Proof. destruct i; reflexivity. Qed.

(** X11. The JSON of a mapped weather entry always has the keys [title],
    [updatedISO], [summary] and [link], in that order, after [id] when there
    is one: [title] and [summary] are strings, [updatedISO] and [link] are a
    value of the feed or an explicit null, never left out. *)
Theorem envcan_entry_keys (e : Val) (w : WeatherEntry) :
  mapEntry e = Ok w ->
  exists (t s : string) (u l : Json),
    entry_json w
    = JsonObj (match stringify (id w) with Some j => [("id", j)] | None => [] end
               ++ [("title", JsonStr t); ("updatedISO", u); ("summary", JsonStr s);
                   ("link", l)])
    /\ title w = str t
    /\ summary w = str s
    /\ (updatedISO w = Null -> u = JsonNull)
    /\ (link w = Null -> l = JsonNull).
Proof.
  intros Hw.
  destruct (title_and_summary_are_strings e w Hw) as [Ht Hs].
  apply mapEntry_fields in Hw as (_ & _ & Hu & _ & Hl).
  apply entry_updatedISO_shape in Hu. apply entry_link_shape in Hl.
  destruct (title w) as [| |b|[t|n|b|items|props]] eqn:Etitle; try discriminate.
  destruct (summary w) as [| |b|[s|n|b|items|props]] eqn:Esummary; try discriminate.
  assert (Hsu : exists u, stringify (updatedISO w) = Some u
                          /\ (updatedISO w = Null -> u = JsonNull)).
  { destruct Hu as [-> | (y & -> & _)]; eexists; split; try reflexivity; discriminate. }
  assert (Hsl : exists l, stringify (link w) = Some l /\ (link w = Null -> l = JsonNull)).
  { destruct Hl as [-> | (y & -> & _)]; eexists; split; try reflexivity; discriminate. }
  destruct Hsu as (u & Eu & Hunull). destruct Hsl as (l & El & Hlnull).
  exists t, s, u, l. split; [|auto].
  unfold entry_json. rewrite Etitle, Esummary, Eu, El. apply literal_with_texts.
Qed.

Lemma envcan_entry_keys_witness :
  exists w,
    mapEntry (Tree Samples.stormWatch) = Ok w
    /\ entry_json w
       = JsonObj [("title", JsonStr "Winter Storm Watch"); ("updatedISO", JsonNull);
                  ("summary", JsonStr ""); ("link", JsonNull)].
Proof.
  eexists. split; [reflexivity|].
  destruct (envcan_entry_keys (Tree Samples.stormWatch) _ eq_refl)
    as (t & s & u & l & Hjson & _).
  reflexivity.
Defined.

(** X12. An entry without provider id is identified by its other fields:
    its [id] is its [link] whenever the link is not null, and otherwise it is
    the value of [updated], which is then also its [updatedISO] when it is
    non-empty. *)
Theorem envcan_id_without_provider_id (e : Val) (w : WeatherEntry) (provider : Val) :
  mapEntry e = Ok w ->
  get e "id" = Ok provider ->
  truthy provider = false ->
  (truthy (link w) = true -> id w = link w)
  /\ (link w = Null ->
      get e "updated" = Ok (id w)
      /\ (truthy (id w) = true -> updatedISO w = id w)).
Proof.
  intros Hw Hid Hfalsy.
  apply mapEntry_fields in Hw as (Hi & _ & Hu & _ & Hl).
  unfold entry_id, entry_link, entry_updatedISO, or_else in *.
  rewrite Hid in Hi. cbn [bind] in Hi. rewrite Hfalsy in Hi.
  destruct (link_href e) as [h|]; [|discriminate]. cbn [bind] in *.
  destruct (truthy h) eqn:Hh.
  - assert (Hidw : id w = h) by congruence.
    assert (Hlw : link w = h) by congruence.
    split; [congruence|]. intros Hnull. rewrite Hnull in Hlw.
    rewrite <- Hlw in Hh. discriminate.
  - assert (Hlw : link w = Null) by congruence.
    split; [rewrite Hlw; discriminate|]. intros _.
    split; [exact Hi|]. intros Htruthy.
    rewrite Hi in Hu. cbn [bind] in Hu. rewrite Htruthy in Hu. cbn [bind] in Hu.
    rewrite Htruthy in Hu. congruence.
Qed.

Lemma envcan_id_without_provider_id_witness :
  exists w,
    mapEntry (Tree Samples.noProviderId) = Ok w
    /\ id w = link w.
Proof.
  eexists. split; [reflexivity|].
  exact (proj1 (envcan_id_without_provider_id (Tree Samples.noProviderId) _ Undefined
                  eq_refl eq_refl eq_refl) eq_refl).
Defined.

(** X13. An entry node that is present but falsy, as the empty string that
    an empty entry element parses to, the number zero or [false], counts as
    absent: the answer is 200 with an empty array, not an array of one. *)
Theorem envcan_falsy_entry_node
  (env : Env) (req : VercelRequest) (res : VercelResponse)
  (r : Response string) (xml : string) (feed : Xml) (raw : Val) :
  fetch env (url (region req)) USER_AGENT = Ok r ->
  ok r = true ->
  body r = Ok xml ->
  parse env xml = Ok feed ->
  entryNode (Tree feed) = Ok raw ->
  truthy raw = false ->
  statusCode (handler env req res) = 200
  /\ sent (handler env req res) ≫= member "entries" = Some (JsonArr []).
Proof.
  intros Hfetch Hok Hbody Hparse Hraw Hfalsy.
  pose proof (attempt_maps env req r xml feed raw Hfetch Hok Hbody Hparse Hraw) as Hatt.
  assert (Hnone : toArray raw = []).
  { destruct raw as [| |b|[s|n|b|items|props]]; cbn [toArray]; try rewrite Hfalsy;
      try reflexivity; discriminate. }
  rewrite Hnone in Hatt. rewrite (handler_succeeds env req res [] Hatt).
  split; reflexivity.
Qed.

Lemma envcan_falsy_entry_node_witness :
  statusCode (handler MoreSamples.emptyEntry (Samples.request []) fresh) = 200
  /\ sent (handler MoreSamples.emptyEntry (Samples.request []) fresh) ≫= member "entries"
     = Some (JsonArr []).
Proof.
  exact (envcan_falsy_entry_node MoreSamples.emptyEntry (Samples.request []) fresh
           {| Fetch.status := 200; Fetch.statusText := "OK"; Fetch.body := Ok ""%string |}
           ""%string _ (str "") eq_refl eq_refl eq_refl eq_refl eq_refl eq_refl).
Defined.

(** X14. A region that is given is used as it is: the text is put into the
    upstream URL between the fixed prefix and [_e.xml] without validation,
    escaping or trimming, and echoed by a 200 answer; a repeated parameter
    reaches the handler as an array, goes into the URL joined by commas and
    is echoed as an array. *)
Theorem envcan_region_is_used_verbatim
  (env : Env) (req : VercelRequest) (res : VercelResponse) :
  (forall s,
      query req !! "region"%string = Some (QStr s) ->
      s <> ""%string ->
      attempt env req
      = afterFetch env
          (fetch env ("https://weather.gc.ca/rss/battleboard/" +:+ s +:+ "_e.xml")
             USER_AGENT)
      /\ (statusCode (handler env req res) = 200 ->
          sent (handler env req res) ≫= member "region" = Some (JsonStr s)))
  /\ (forall ss,
        query req !! "region"%string = Some (QArr ss) ->
        attempt env req
        = afterFetch env
            (fetch env ("https://weather.gc.ca/rss/battleboard/" +:+ join ss +:+ "_e.xml")
               USER_AGENT)
        /\ (statusCode (handler env req res) = 200 ->
            sent (handler env req res) ≫= member "region"
            = Some (JsonArr (JsonStr <$> ss)))).
Proof.
  assert (Hecho : statusCode (handler env req res) = 200 ->
                  sent (handler env req res) ≫= member "region"
                  = Some (query_json (region req))).
  { intros Hstatus.
    destruct (envcan_paths env req res) as [(ws & _ & Hres)|(err & _ & Hres)];
      rewrite Hres in *; [reflexivity|discriminate]. }
  split.
  - intros s Hq Hs.
    assert (Hregion : region req = QStr s).
    { unfold region. rewrite Hq. cbn [truthy_query].
      destruct (String.eqb_spec s ""); [contradiction|reflexivity]. }
    split; [unfold attempt; rewrite Hregion; reflexivity|].
    intros Hstatus. rewrite (Hecho Hstatus), Hregion. reflexivity.
  - intros ss Hq.
    assert (Hregion : region req = QArr ss).
    { unfold region. rewrite Hq. reflexivity. }
    split; [unfold attempt; rewrite Hregion; reflexivity|].
    intros Hstatus. rewrite (Hecho Hstatus), Hregion. reflexivity.
Qed.

Lemma envcan_region_is_used_verbatim_witness :
  sent (handler Samples.noEntries (Samples.request [("region", QStr "../on61")]) fresh)
    ≫= member "region" = Some (JsonStr "../on61")
  /\ sent (handler Samples.noEntries (Samples.request [("region", QArr ["on61"; "bc12"])])
            fresh) ≫= member "region"
     = Some (JsonArr [JsonStr "on61"; JsonStr "bc12"]).
Proof.
  split.
  - apply (proj1 (envcan_region_is_used_verbatim Samples.noEntries
                    (Samples.request [("region", QStr "../on61")]) fresh)
             "../on61"%string); [reflexivity|discriminate|reflexivity].
  - apply (proj2 (envcan_region_is_used_verbatim Samples.noEntries
                    (Samples.request [("region", QArr ["on61"; "bc12"])]) fresh)
             ["on61"; "bc12"]%string); reflexivity.
Defined.

Lemma str_app_cons (x : ascii) (a b : string) : String x a +:+ b = String x (a +:+ b).
Proof. reflexivity. Qed.

Lemma rev_app_app (a b c : string) :
  String.rev_app a b +:+ c = String.rev_app a (b +:+ c).
Proof.
  revert b. induction a as [|x a IH]; intros b; [reflexivity|].
  cbn [String.rev_app]. rewrite IH, str_app_cons. reflexivity.
Qed.

Lemma rev_cons (x : ascii) (s : string) :
  String.rev (String x s) = String.rev s +:+ String x "".
Proof. unfold String.rev. cbn [String.rev_app]. rewrite rev_app_app. reflexivity. Qed.

Lemma rev_app_snoc (b : string) (c : ascii) (acc : string) :
  String.rev_app (b +:+ String c "") acc = String c (String.rev_app b acc).
Proof.
  revert acc. induction b as [|x b IH]; intros acc; [reflexivity|].
  rewrite str_app_cons. cbn [String.rev_app]. apply IH.
Qed.

Lemma rev_involutive (s : string) : String.rev (String.rev s) = s.
Proof.
  induction s as [|x s IH]; [reflexivity|].
  rewrite rev_cons. unfold String.rev at 1. rewrite rev_app_snoc.
  f_equal. exact IH.
Qed.

Lemma trimStart_starts (s : string) : starts_white (trimStart s) = false.
Proof.
  induction s as [|c s IH]; [reflexivity|].
  cbn [trimStart]. destruct (is_white c) eqn:Hc; [exact IH|]. exact Hc.
Qed.

Lemma trimStart_snoc (a : string) (c : ascii) :
  is_white c = false -> exists b, trimStart (a +:+ String c "") = b +:+ String c "".
Proof.
  intros Hc. induction a as [|x a IH].
  - exists ""%string. change (trimStart (String c "") = String c "").
    cbn [trimStart]. rewrite Hc. reflexivity.
  - rewrite str_app_cons. cbn [trimStart]. destruct (is_white x); [exact IH|].
    exists (String x a). reflexivity.
Qed.

Lemma trim_is_tidy (s : string) :
  starts_white (trim s) = false /\ ends_white (trim s) = false.
Proof.
  unfold trim, trimEnd, ends_white. split.
  - pose proof (trimStart_starts s) as Hstart.
    destruct (trimStart s) as [|c x]; [reflexivity|].
    cbn [starts_white] in Hstart. rewrite rev_cons.
    destruct (trimStart_snoc (String.rev x) c Hstart) as (b & ->).
    unfold String.rev. rewrite rev_app_snoc. exact Hstart.
  - rewrite rev_involutive. apply trimStart_starts.
Qed.

Lemma invoke_trim_result (v r : Val) :
  invoke v "trim" = Ok r -> exists s, r = str (trim s).
Proof.
  unfold invoke. destruct v as [| |b|[s|n|b|items|props]]; simpl; try discriminate.
  - intros [= <-]. eauto.
  - destruct (assoc "trim" props); simpl; discriminate.
Qed.

(** X15. The [title] and the [summary] of a mapped entry are trimmed: neither
    begins nor ends with white space. *)
Theorem envcan_texts_are_trimmed (e : Val) (w : WeatherEntry) :
  mapEntry e = Ok w ->
  exists t s,
    title w = str t
    /\ summary w = str s
    /\ starts_white t = false /\ ends_white t = false
    /\ starts_white s = false /\ ends_white s = false.
Proof.
  intros Hw. apply mapEntry_fields in Hw as (_ & Ht & _ & Hs & _).
  assert (Htitle : exists t, title w = str (trim t)).
  { unfold entry_title in Ht.
    destruct (or_else (get e "title") (Ok (str ""))) as [t|]; [|discriminate].
    cbn [bind] in Ht. destruct (invoke t "toString") as [t'|]; [|discriminate].
    cbn [bind] in Ht. eapply invoke_trim_result, Ht. }
  assert (Hsummary : exists s, summary w = str (trim s)).
  { unfold entry_summary, or_else in Hs.
    destruct (get e "summary") as [x|]; [|discriminate]. cbn [bind] in Hs.
    destruct (if is_string x then Ok x else get_opt x "#text") as [x'|]; [|discriminate].
    cbn [bind] in Hs. unfold invoke_opt in Hs.
    destruct (nullish x'); cbn [bind truthy] in Hs.
    - injection Hs as <-. exists ""%string. reflexivity.
    - destruct (invoke x' "trim") as [r|] eqn:Hr; [|discriminate]. cbn [bind] in Hs.
      apply invoke_trim_result in Hr as (s & ->).
      destruct (truthy (str (trim s))); injection Hs as <-; [eauto|].
      exists ""%string. reflexivity. }
  destruct Htitle as (t & Et). destruct Hsummary as (s & Es).
  exists (trim t), (trim s).
  destruct (trim_is_tidy t) as [? ?]. destruct (trim_is_tidy s) as [? ?].
  repeat split; assumption.
Qed.

Lemma envcan_texts_are_trimmed_witness :
  exists t s,
    entry_title (Tree Samples.advisory) = Ok (str t)
    /\ entry_summary (Tree Samples.advisory) = Ok (str s)
    /\ starts_white t = false /\ ends_white t = false
    /\ starts_white s = false /\ ends_white s = false.
Proof.
  destruct (envcan_texts_are_trimmed (Tree Samples.advisory) _ eq_refl)
    as (t & s & Ht & Hs & Htidy).
  exists t, s. split; [rewrite <- Ht; reflexivity|].
  split; [rewrite <- Hs; reflexivity|]. exact Htidy.
Defined.

End WeatherMore.

(** ** The dashboard component *)

Section DashboardProperties.
Import Dashboard DashboardSpec.

(** X16. [clamp] returns its argument when it lies between the bounds and
    the nearer bound otherwise; with crossed bounds it returns the upper one;
    and it does not clamp [NaN], which comes back as [NaN]. *)
Theorem clamp_law (n lo hi : Z) :
  (lo <= hi ->
   exists c,
     clamp (Int n) (Int lo) (Int hi) = Int c
     /\ lo <= c <= hi
     /\ (lo <= n <= hi -> c = n)
     /\ (n < lo -> c = lo)
     /\ (hi < n -> c = hi))
  /\ (hi < lo -> clamp (Int n) (Int lo) (Int hi) = Int hi)
  /\ clamp NaN (Int lo) (Int hi) = NaN
  /\ clamp (clamp (Int n) (Int lo) (Int hi)) (Int lo) (Int hi)
     = clamp (Int n) (Int lo) (Int hi).
Proof.
  unfold clamp. cbn [Math_max Math_min]. repeat split.
  - intros Hle. exists (Z.min (Z.max n lo) hi). repeat split; lia.
  - intros Hlt. f_equal. lia.
  - f_equal. lia.
Qed.

Lemma clamp_law_witness :
  exists c,
    clamp (Int 185) (Int 5) (Int 180) = Int c
    /\ 5 <= c <= 180
    /\ (5 <= 185 <= 180 -> c = 185)
    /\ (185 < 5 -> c = 5)
    /\ (180 < 185 -> c = 180).
Proof. apply (proj1 (clamp_law 185 5 180)). lia. Defined.

Lemma clamp_within (n : Number) (lo hi : Z) :
  n <> NaN -> lo <= hi -> within lo hi (clamp n (Int lo) (Int hi)).
Proof.
  intros Hn Hle. destruct n as [|z]; [contradiction|].
  unfold clamp. cbn [Math_max Math_min within]. lia.
Qed.

Lemma press_settled (e : Press) (s : Settings) :
  settled s -> numeric e -> settled (press e s).
Proof.
  intros (Hw & Hb & Hg & Hp) He. unfold settled.
  destruct e; cbn [press with_workMin with_breakMin with_proteinGoal with_proteinToday
                   workMin breakMin proteinGoal proteinToday numeric] in *;
    repeat split; try assumption; try (apply clamp_within; [assumption|lia]).
  - destruct (workMin s); [contradiction|]. apply clamp_within; [discriminate|lia].
  - destruct (workMin s); [contradiction|]. apply clamp_within; [discriminate|lia].
  - destruct (breakMin s); [contradiction|]. apply clamp_within; [discriminate|lia].
  - destruct (breakMin s); [contradiction|]. apply clamp_within; [discriminate|lia].
  - unfold addProtein. destruct (proteinToday s); [contradiction|].
    destruct n; [contradiction|]. apply clamp_within; [discriminate|lia].
  - lia.
  - lia.
Qed.

(** X17. On first launch, with nothing stored, the settings are 25 and 5
    minutes, a goal of 130 g and 0 g eaten; from settings within the bounds of
    their controls (5-180 and 1-60 minutes, 40-300 g, 0-10000 g), any sequence
    of button presses and typed numbers leaves all four within those bounds.
    A typed text that is no number escapes them: it sets the setting to
    [NaN]. *)
Theorem settings_stay_within_bounds :
  settled (restore (Int 0) (Int 0) (Int 0) (Int 0))
  /\ restore (Int 0) (Int 0) (Int 0) (Int 0)
     = {| workMin := Int 25; breakMin := Int 5;
          proteinGoal := Int 130; proteinToday := Int 0 |}
  /\ (forall (presses : list Press) (s : Settings),
        settled s ->
        Forall numeric presses ->
        settled (foldl (fun s e => press e s) s presses))
  /\ (forall s, workMin (press (WorkTyped NaN) s) = NaN).
Proof.
  split; [repeat split; vm_compute; discriminate|].
  split; [reflexivity|]. split; [|reflexivity].
  intros presses. induction presses as [|e presses IH]; intros s Hs Hnum; [exact Hs|].
  cbn [foldl]. inversion Hnum as [|? ? He Hrest]; subst.
  apply IH; [apply press_settled; assumption|assumption].
Qed.

Lemma settings_stay_within_bounds_witness :
  settled (foldl (fun s e => press e s)
             (restore (Int 0) (Int 0) (Int 0) (Int 0))
             [WorkPlus; WorkTyped (Int 999); BreakMinus; AddProtein (Int 50);
              GoalTyped (Int 7); ProteinReset; AddProtein (Int 35)]).
Proof.
  apply (proj1 (proj2 (proj2 settings_stay_within_bounds))).
  - exact (proj1 settings_stay_within_bounds).
  - repeat constructor; discriminate.
Defined.

Lemma table_code_listed (code : Number) : In (table_code code) table_codes.
Proof.
  unfold table_code, table_codes. destruct code as [|z]; [left; reflexivity|].
  destruct ((0 <=? z) && (z <=? 99)) eqn:Hz; [|left; reflexivity].
  right. apply andb_prop in Hz as [Hlo Hhi].
  apply Z.leb_le in Hlo. apply Z.leb_le in Hhi.
  replace z with (Z.of_nat (Z.to_nat z)) by lia.
  apply in_map, in_seq. lia.
Qed.

Lemma tables_read_table_code (code : Number) :
  weatherDesc code = weatherDesc (Int (table_code code))
  /\ weatherIcon code = weatherIcon (Int (table_code code)).
Proof.
  unfold table_code. destruct code as [|z]; [split; reflexivity|].
  destruct ((0 <=? z) && (z <=? 99)) eqn:Hz; [split; reflexivity|].
  assert (Hout : z < 0 \/ 99 < z).
  { apply andb_false_iff in Hz as [Hz|Hz]; apply Z.leb_gt in Hz; lia. }
  unfold weatherDesc, weatherIcon, includes, equals, existsb.
  repeat match goal with
         | |- context [z =? ?k] => destruct (Z.eqb_spec z k); [lia|]
         end.
  split; reflexivity.
Qed.

Lemma tables_agree_on_codes :
  forallb (fun a =>
    forallb (fun b =>
      implb (String.eqb (weatherDesc (Int a)) (weatherDesc (Int b)))
            (String.eqb (weatherIcon (Int a)) (weatherIcon (Int b))))
      table_codes
    && Bool.eqb (String.eqb (weatherDesc (Int a)) "—")
                (String.eqb (weatherIcon (Int a)) "⛅"))
    table_codes = true.
Proof. vm_compute. reflexivity. Qed.

(** X18. The two weather tables agree: the icon is determined by the
    description (two codes with the same description have the same icon), and
    a code has the fallback description exactly when it has the fallback
    icon, so both tables know the same codes. *)
Theorem weather_tables_agree (code other : Number) :
  (weatherDesc code = weatherDesc other -> weatherIcon code = weatherIcon other)
  /\ (weatherDesc code = "—"%string <-> weatherIcon code = "⛅"%string).
Proof.
  destruct (tables_read_table_code code) as [Hd Hi].
  destruct (tables_read_table_code other) as [Hd' Hi'].
  rewrite Hd, Hi, Hd', Hi'.
  pose proof tables_agree_on_codes as Hall.
  rewrite forallb_forall in Hall.
  specialize (Hall _ (table_code_listed code)).
  apply andb_prop in Hall as [Hpair Hfallback]. split.
  - rewrite forallb_forall in Hpair.
    specialize (Hpair _ (table_code_listed other)).
    intros Hsame. apply String.eqb_eq in Hsame. rewrite Hsame in Hpair.
    apply String.eqb_eq. exact Hpair.
  - apply Bool.eqb_prop in Hfallback. rewrite <- !String.eqb_eq, Hfallback. reflexivity.
Qed.

Lemma weather_tables_agree_witness :
  weatherIcon (Int 85) = weatherIcon (Int 86).
Proof.
  exact (proj1 (weather_tables_agree (Int 85) (Int 86)) eq_refl).
Defined.

(** X19. Saving a capture whose text is blank (empty or white space only)
    changes nothing and posts nothing. Saving any other text clears the input,
    posts the trimmed text, and puts a new item with that text in front of the
    previous ones, of which the first 19 are kept: the list never holds more
    than 20 items. *)
Theorem capture_is_saved_in_front (uuid : string) (now : Z) (st : CaptureState) :
  (trim (capture st) = ""%string -> submitCapture uuid now st = (st, None))
  /\ (trim (capture st) <> ""%string ->
      submitCapture uuid now st
      = ({| capture := "";
            captureItems := {| id := uuid; text := trim (capture st); ts := now |}
                              :: take 19 (captureItems st) |},
         Some (trim (capture st)))
      /\ length (captureItems (fst (submitCapture uuid now st)))
         = Nat.min 20 (S (length (captureItems st))))
  /\ (length (captureItems st) <= 20 ->
      length (captureItems (fst (submitCapture uuid now st))) <= 20)%nat.
Proof.
  unfold submitCapture. split; [|split].
  - intros ->. reflexivity.
  - intros Htext. destruct (String.eqb_spec (trim (capture st)) ""); [contradiction|].
    split; [reflexivity|]. cbn [fst captureItems]. rewrite length_take. reflexivity.
  - intros Hlen. destruct (String.eqb (trim (capture st)) ""); cbn [fst captureItems].
    + exact Hlen.
    + rewrite length_take. lia.
Qed.

Lemma capture_is_saved_in_front_witness :
  submitCapture "u-1" 1700000000000 {| capture := "  buy milk "; captureItems := [] |}
  = ({| capture := "";
        captureItems := [ {| id := "u-1"; text := "buy milk"; ts := 1700000000000 |} ] |},
     Some "buy milk"%string)
  /\ submitCapture "u-2" 1700000000000 {| capture := "   "; captureItems := [] |}
     = ({| capture := "   "; captureItems := [] |}, None).
Proof.
  split.
  - apply (proj1 (proj2 (capture_is_saved_in_front "u-1" 1700000000000
                           {| capture := "  buy milk "; captureItems := [] |}))).
    discriminate.
  - apply (proj1 (capture_is_saved_in_front "u-2" 1700000000000
                    {| capture := "   "; captureItems := [] |})).
    reflexivity.
Defined.

Lemma happen_bounded (e : CaptureEvent) (st : CaptureState) :
  (length (captureItems st) <= 20 -> length (captureItems (happen e st)) <= 20)%nat.
Proof.
  intros Hlen. destruct e as [value|uuid now|cid]; cbn [happen captureItems].
  - exact Hlen.
  - unfold submitCapture. destruct (String.eqb (trim (capture st)) "");
      cbn [fst captureItems]; [exact Hlen|]. rewrite length_take. lia.
  - unfold removeCapture. cbn [captureItems].
    etransitivity; [apply List.filter_length_le|exact Hlen].
Qed.

(** X20. Deleting a capture removes every item with that id and nothing
    else, keeping the order of the others, and leaves the input as it is;
    deleting an id that is not in the list changes nothing. Whatever is typed,
    saved and deleted, in any order, a list of at most 20 items stays a list
    of at most 20 items. *)
Theorem capture_delete_and_bound (cid : string) (st : CaptureState) :
  (forall x, In x (captureItems (removeCapture cid st))
             <-> In x (captureItems st) /\ id x <> cid)
  /\ sublist (captureItems (removeCapture cid st)) (captureItems st)
  /\ capture (removeCapture cid st) = capture st
  /\ ((forall x, In x (captureItems st) -> id x <> cid) -> removeCapture cid st = st)
  /\ (forall events : list CaptureEvent,
        (length (captureItems st) <= 20)%nat ->
        (length (captureItems (foldl (fun st e => happen e st) st events)) <= 20)%nat).
Proof.
  split; [|split; [|split; [|split]]].
  - intros x. unfold removeCapture. cbn [captureItems]. rewrite List.filter_In.
    rewrite negb_true_iff, String.eqb_neq. reflexivity.
  - unfold removeCapture. cbn [captureItems].
    induction (captureItems st) as [|x xs IH]; [constructor|].
    cbn [List.filter]. destruct (negb (String.eqb (id x) cid));
      [apply sublist_skip|apply sublist_cons]; exact IH.
  - reflexivity.
  - intros Hnone. destruct st as [c items]. unfold removeCapture.
    cbn [capture captureItems] in *. f_equal.
    induction items as [|x xs IH]; [reflexivity|].
    cbn [List.filter]. assert (Hx : id x <> cid) by (apply Hnone; left; reflexivity).
    apply String.eqb_neq in Hx. rewrite Hx. cbn [negb]. f_equal.
    apply IH. intros y Hy. apply Hnone. right. exact Hy.
  - intros events. revert st. induction events as [|e events IH]; intros st' Hlen;
      [exact Hlen|].
    cbn [foldl]. apply IH, happen_bounded, Hlen.
Qed.

Lemma capture_delete_and_bound_witness :
  removeCapture "u-9"
    {| capture := "draft";
       captureItems := [ {| id := "u-1"; text := "buy milk"; ts := 1700000000000 |} ] |}
  = {| capture := "draft";
       captureItems := [ {| id := "u-1"; text := "buy milk"; ts := 1700000000000 |} ] |}.
Proof.
  apply (proj1 (proj2 (proj2 (proj2 (capture_delete_and_bound "u-9"
           {| capture := "draft";
              captureItems := [ {| id := "u-1"; text := "buy milk";
                                   ts := 1700000000000 |} ] |}))))).
  intros x [<-|[]]. discriminate.
Defined.

(** X21. [fetchJSON] gives the parsed body when the fetch resolves with a
    status in 200-299 and the body parses, and [null] in every other case: a
    rejected fetch, a body that is no JSON, and any other status even when
    its body is valid JSON. So the health badge shows OK exactly when the
    health endpoint answers 2xx with a truthy JSON body; a body that is
    [null], [false], [0] or the empty string shows as offline. *)
Theorem fetchJSON_is_null_on_failure (outcome : result (Response Json)) :
  (forall res data,
      outcome = Ok res -> ok res = true -> Fetch.body res = Ok data ->
      fetchJSON outcome = data)
  /\ (forall res, outcome = Ok res -> ok res = false -> fetchJSON outcome = JsonNull)
  /\ (forall res err,
        outcome = Ok res -> Fetch.body res = Throw err -> fetchJSON outcome = JsonNull)
  /\ (forall err, outcome = Throw err -> fetchJSON outcome = JsonNull)
  /\ (ollamaOK outcome = true <->
      exists res data,
        outcome = Ok res /\ ok res = true /\ Fetch.body res = Ok data
        /\ data <> JsonNull /\ data <> JsonBool false /\ data <> JsonNum 0
        /\ data <> JsonStr "").
Proof.
  unfold ollamaOK, fetchJSON. split; [|split; [|split; [|split]]].
  - intros res data -> Hok Hbody. cbn [bind]. rewrite Hok, Hbody. reflexivity.
  - intros res -> Hok. cbn [bind]. rewrite Hok. reflexivity.
  - intros res err -> Hbody. cbn [bind]. rewrite Hbody.
    destruct (negb (ok res)); reflexivity.
  - intros err ->. reflexivity.
  - split.
    + destruct outcome as [res|err]; cbn [bind]; [|discriminate].
      destruct (ok res) eqn:Hok; cbn [negb]; [|discriminate].
      destruct (Fetch.body res) as [data|err] eqn:Hbody; [|discriminate].
      intros Htruthy. exists res, data. repeat split; try assumption;
        intros ->; cbn in Htruthy; discriminate.
    + intros (res & data & -> & Hok & Hbody & Hnull & Hfalse & Hzero & Hempty).
      cbn [bind]. rewrite Hok, Hbody. cbn [negb].
      destruct data as [|b|n|s|items|members]; cbn [truthy]; try reflexivity.
      * contradiction.
      * destruct b; [reflexivity|contradiction].
      * destruct (Z.eqb_spec n 0) as [->|]; [contradiction|reflexivity].
      * destruct (String.eqb_spec s "") as [->|]; [contradiction|reflexivity].
Qed.

Lemma fetchJSON_is_null_on_failure_witness :
  fetchJSON (Ok {| Fetch.status := 503; Fetch.statusText := "Service Unavailable";
                   Fetch.body := Ok (JsonObj [("models", JsonArr [])]) |})
  = JsonNull.
Proof.
  apply (proj1 (proj2 (fetchJSON_is_null_on_failure
           (Ok {| Fetch.status := 503; Fetch.statusText := "Service Unavailable";
                  Fetch.body := Ok (JsonObj [("models", JsonArr [])]) |})))
           {| Fetch.status := 503; Fetch.statusText := "Service Unavailable";
              Fetch.body := Ok (JsonObj [("models", JsonArr [])]) |});
    reflexivity.
Defined.







(** X24. The two switches survive a reload: after the effect has stored
    the dark mode or the auto-run choice, the initial value read back from the
    local storage is that choice, whatever the system prefers. Storing one
    switch leaves every other key of the storage as it was, the other switch
    included. With nothing stored, dark mode follows the system preference
    and auto-run is off. *)
Theorem switches_survive_reload (w : Window) :
  (forall darkMode : bool,
      initialDarkMode (Some (storeDarkMode (Some darkMode) w)) = Some darkMode)
  /\ (forall autoRun : bool, initialAutoRun (storeAutoRun autoRun w) = autoRun)
  /\ (forall (darkMode : option bool) (key : string),
        key <> "geoff-dark"%string ->
        localStorage (storeDarkMode darkMode w) !! key = localStorage w !! key)
  /\ (forall (autoRun : bool) (key : string),
        key <> "geoff-autorun"%string ->
        localStorage (storeAutoRun autoRun w) !! key = localStorage w !! key)
  /\ (forall (darkMode : option bool) (autoRun : bool),
        initialAutoRun (storeDarkMode darkMode (storeAutoRun autoRun w)) = autoRun)
  /\ (localStorage w !! "geoff-dark"%string = None ->
      initialDarkMode (Some w) = prefersDark w)
  /\ (localStorage w !! "geoff-autorun"%string = None -> initialAutoRun w = false).
Proof.
  split; [|split; [|split; [|split; [|split; [|split]]]]].
  - intros darkMode. unfold initialDarkMode, storeDarkMode. cbn [localStorage].
    rewrite lookup_insert_eq. destruct darkMode; reflexivity.
  - intros autoRun. unfold initialAutoRun, storeAutoRun. cbn [localStorage].
    rewrite lookup_insert_eq. destruct autoRun; reflexivity.
  - intros darkMode key Hkey. unfold storeDarkMode. cbn [localStorage].
    apply lookup_insert_ne. congruence.
  - intros autoRun key Hkey. unfold storeAutoRun. cbn [localStorage].
    apply lookup_insert_ne. congruence.
  - intros darkMode autoRun. unfold initialAutoRun, storeDarkMode, storeAutoRun.
    cbn [localStorage]. rewrite lookup_insert_ne by discriminate.
    rewrite lookup_insert_eq. destruct autoRun; reflexivity.
  - intros Hnone. unfold initialDarkMode. rewrite Hnone. reflexivity.
  - intros Hnone. unfold initialAutoRun. rewrite Hnone. reflexivity.
Qed.

Lemma switches_survive_reload_witness :
  initialDarkMode (Some {| localStorage := ∅; prefersDark := Some true |}) = Some true.
Proof.
  apply (proj1 (proj2 (proj2 (proj2 (proj2 (proj2
           (switches_survive_reload {| localStorage := ∅; prefersDark := Some true |}))))))).
  reflexivity.
Defined.

End DashboardProperties.
